(** * bonsai_connector.connector: the state validator and the session engine

    A shallow embedding of [src/bonsai_connector/connector.py]:
    [validate_state] as a pure recursive function over Python values,
    and the methods of [BonsaiConnector] as computations in a small
    state-and-exception monad that threads the object, the platform and
    the record of the transport calls made. *)

From Stdlib Require Import String ZArith List Bool Lia.
From Stdlib Require Import Floats.SpecFloat.
Import ListNotations.
Local Open Scope string_scope.
Set Warnings "-register-all".

(** ** Python values *)

(** The exact runtime type of a value, what [type(x)] returns.  [TOther]
    stands for every other class (numpy scalars and arrays, tuples,
    subclasses of the builtins, ...), with its qualified name. *)
Inductive pytype : Type :=
  | TNone | TBool | TInt | TFloat | TStr | TComplex | TList | TDict
  | TOther (qualname : string).

(** Values.  A dict is kept as the list of its items in insertion order:
    the order decides which offending element [validate_state] reports.
    [PObj cls text] is an object of another class, [text] what [str] gives
    for it; [PBroken cls ecls emsg] is one that cannot be formatted: [str]
    of it raises the exception of class [ecls] with message [emsg]. *)
#[local] Unset Elimination Schemes.
Inductive pyval : Type :=
  | PNone
  | PBool (b : bool)
  | PInt (n : Z)
  | PFloat (x : spec_float)
  | PStr (s : string)
  | PComplex (re im : spec_float)
  | PList (items : list pyval)
  | PDict (items : list (pyval * pyval))
  | PObj (cls : string) (text : string)
  | PBroken (cls : string) (ecls emsg : string).
#[local] Set Elimination Schemes.

(** Induction over values, with the hypothesis available for every item
    of a list and for every value of a dict. *)
Section pyval_induction.
Variable P : pyval -> Prop.
Hypothesis HNone : P PNone.
Hypothesis HBool : forall b, P (PBool b).
Hypothesis HInt : forall n, P (PInt n).
Hypothesis HFloat : forall x, P (PFloat x).
Hypothesis HStr : forall s, P (PStr s).
Hypothesis HComplex : forall re im, P (PComplex re im).
Hypothesis HList : forall items, Forall P items -> P (PList items).
Hypothesis HDict :
  forall items, Forall (fun kv => P (snd kv)) items -> P (PDict items).
Hypothesis HObj : forall cls text, P (PObj cls text).
Hypothesis HBroken : forall cls ecls emsg, P (PBroken cls ecls emsg).

Fixpoint pyval_ind (v : pyval) : P v :=
  match v with
  | PNone => HNone
  | PBool b => HBool b
  | PInt n => HInt n
  | PFloat x => HFloat x
  | PStr s => HStr s
  | PComplex re im => HComplex re im
  | PList items =>
      HList items
        ((fix all (l : list pyval) : Forall P l :=
            match l with
            | [] => Forall_nil P
            | x :: r => Forall_cons x (pyval_ind x) (all r)
            end) items)
  | PDict items =>
      HDict items
        ((fix all (l : list (pyval * pyval))
            : Forall (fun kv => P (snd kv)) l :=
            match l with
            | [] => Forall_nil _
            | kv :: r =>
                Forall_cons kv
                  (match kv return P (snd kv) with
                   | (_, x) => pyval_ind x
                   end)
                  (all r)
            end) items)
  | PObj cls text => HObj cls text
  | PBroken cls ecls emsg => HBroken cls ecls emsg
  end.
End pyval_induction.

Definition type_of (x : pyval) : pytype :=
  match x with
  | PNone => TNone
  | PBool _ => TBool
  | PInt _ => TInt
  | PFloat _ => TFloat
  | PStr _ => TStr
  | PComplex _ _ => TComplex
  | PList _ => TList
  | PDict _ => TDict
  | PObj cls _ => TOther cls
  | PBroken cls _ _ => TOther cls
  end.

Definition pytype_eqb (a b : pytype) : bool :=
  match a, b with
  | TNone, TNone | TBool, TBool | TInt, TInt | TFloat, TFloat
  | TStr, TStr | TComplex, TComplex | TList, TList | TDict, TDict => true
  | TOther p, TOther q => String.eqb p q
  | _, _ => false
  end.

(** [t in types] on a tuple of types. *)
Definition type_in (t : pytype) (types : list pytype) : bool :=
  existsb (pytype_eqb t) types.

(** ** Messages and exceptions *)

(** An f-string before rendering: literal text, [{value}] and
    [{type(value)}] holes.  The rendering of a value is [str], a builtin. *)
Inductive fpart : Type :=
  | Lit (s : string)
  | Fmt (v : pyval)
  | FmtType (t : pytype).

Definition fstring := list fpart.

Definition type_name (t : pytype) : string :=
  match t with
  | TNone => "NoneType" | TBool => "bool" | TInt => "int"
  | TFloat => "float" | TStr => "str" | TComplex => "complex"
  | TList => "list" | TDict => "dict" | TOther q => q
  end.

Definition render_part (py_str : pyval -> string) (p : fpart) : string :=
  match p with
  | Lit s => s
  | Fmt v => py_str v
  | FmtType t => "<class '" ++ type_name t ++ "'>"
  end.

Definition render (py_str : pyval -> string) (f : fstring) : string :=
  fold_right (fun p acc => render_part py_str p ++ acc) "" f.

Inductive exn : Type :=
  | TypeError (msg : fstring)
  | AttributeError (msg : fstring)
  | RuntimeError (args : list pyval)
  | ValidationError (msg : string)
  | RecursionError
  | OtherError (cls : string) (msg : string).

Inductive result (A : Type) : Type :=
  | Ok (a : A)
  | Raise (e : exn).
Arguments Ok {A} a.
Arguments Raise {A} e.

(** ** validate_state *)

Definition allowed_types : list pytype := [TBool; TDict; TFloat; TInt; TList].
Definition iterable_types : list pytype := [TDict; TList].

Definition has_invalid_type (x : pyval) : bool :=
  negb (type_in (type_of x) allowed_types).

Definition unsupported (x : pyval) : exn :=
  TypeError [Lit "Element '"; Fmt x; Lit "' not supported: "; FmtType (type_of x)].

(** A [for] loop whose body returns nothing or raises. *)
Definition for_each {A} (body : A -> result unit) : list A -> result unit :=
  fix loop (l : list A) : result unit :=
    match l with
    | [] => Ok tt
    | x :: rest =>
        match body x with
        | Ok _ => loop rest
        | Raise e => Raise e
        end
    end.

(** Raising the TypeError formats the element into the message first;
    when that raises, its exception is what leaves [validate_state]. *)
Definition str_raises (x : pyval) : option exn :=
  match x with
  | PBroken _ ecls emsg => Some (OtherError ecls emsg)
  | _ => None
  end.

Definition reject (x : pyval) : exn :=
  match str_raises x with
  | Some e => e
  | None => unsupported x
  end.

(** [None] of a function that returns nothing is [tt].

    [levels] is the interpreter's recursion limit as seen from the call:
    how many activations of [validate_state], one inside the other, fit in
    what is left of the stack (each takes one frame, and the innermost
    needs the room of its call of [has_invalid_type]).  An activation that
    does not fit raises RecursionError. *)
Fixpoint validate_state (levels : nat) (state : pyval) : result unit :=
  match levels with
  | O => Raise RecursionError
  | S deeper =>
      if has_invalid_type state then Raise (reject state)
      else if negb (has_invalid_type state)
              && negb (type_in (type_of state) iterable_types) then Ok tt
      else
        match state with
        | PDict items =>
            for_each (fun '(_, val) => validate_state deeper val) items
        | PList items =>
            for_each (fun item => validate_state deeper item) items
        | _ => Ok tt
        end
  end.

(** ** The platform's data (package microsoft_bonsai_api) *)

Record Session : Type := { session_id : string }.

Record BonsaiClientConfig : Type := {
  cfg_workspace : string;
  simulator_context : pyval;
  enable_logging : bool
}.

(** [SimulatorInterface(simulator_context=..., **sim_interface)]. *)
Module SimulatorInterface.
Record t : Type := { simulator_context : pyval; kwargs : pyval }.
End SimulatorInterface.

(** [SimulatorState(sequence_id=..., state=..., halted=...)]. *)
Module SimulatorState.
Record t : Type := { sequence_id : Z; state : pyval; halted : pyval }.
End SimulatorState.

Record EpisodeStart : Type := { config : pyval }.
Record EpisodeStep : Type := { action : pyval }.
Record EpisodeFinish : Type := { reason : pyval }.
Record Unregister : Type := { details : pyval }.

(** The response of [session.advance].  A payload attribute the platform
    did not fill is [None]. *)
Module Event.
Record t : Type := {
  type : string;
  sequence_id : Z;
  episode_start : option EpisodeStart;
  episode_step : option EpisodeStep;
  episode_finish : option EpisodeFinish;
  unregister : option Unregister
}.
End Event.

(** The transport collaborator over a platform state [W]: each operation
    returns or raises, and moves the platform on.  Building the
    registration body, [SimulatorInterface(simulator_context=c, **d)], is
    the client library's too: it returns the model or raises. *)
Record BonsaiClient (W : Type) : Type := {
  SimulatorInterface_new : pyval -> pyval -> result SimulatorInterface.t;
  session_create :
    string -> SimulatorInterface.t -> W -> result Session * W;
  session_advance :
    string -> string -> SimulatorState.t -> W -> result Event.t * W;
  session_delete : string -> string -> W -> result unit * W
}.
Arguments SimulatorInterface_new {W}.
Arguments session_create {W}.
Arguments session_advance {W}.
Arguments session_delete {W}.

(** The transport calls a run makes, oldest first. *)
Inductive call : Type :=
  | CallCreate (workspace_name : string) (body : SimulatorInterface.t)
  | CallAdvance (workspace_name : string) (sid : string)
      (body : SimulatorState.t)
  | CallDelete (workspace_name : string) (sid : string).

(** ** The schema files and jsonschema *)

Record RefResolver : Type := {
  referrer : pyval;
  store : list (string * pyval)
}.

(** [read_text] of a file of the package's schema directory, [json.loads],
    and [jsonschema.validate], which returns ([None]) or raises. *)
Record SchemaEnv : Type := {
  read_text : string -> result string;
  json_loads : string -> result pyval;
  jsonschema_validate : pyval -> pyval -> RefResolver -> option exn
}.

(** ** Logging *)

Inductive level : Type := DEBUG | INFO | WARNING.

Inductive log_payload : Type :=
  | LogMsg (msg : fstring)
  | LogExc (exc : exn).

Definition log_record : Type := (level * log_payload)%type.

(** ** Events handed to the caller *)

Inductive BonsaiEventType : Type :=
  | IDLE | EPISODE_START | EPISODE_STEP | EPISODE_FINISH.

(** The value of each member of the enumeration. *)
Definition BonsaiEventType_value (t : BonsaiEventType) : string :=
  match t with
  | IDLE => "Idle"
  | EPISODE_START => "EpisodeStart"
  | EPISODE_STEP => "EpisodeStep"
  | EPISODE_FINISH => "EpisodeFinish"
  end.

Record BonsaiEvent : Type := {
  event_type : BonsaiEventType;
  event_content : pyval
}.

(** ** The connector object and the machine it runs on *)

Record BonsaiConnector : Type := {
  client_config : BonsaiClientConfig;
  workspace : string;
  verbose : bool;
  sim_interface : pyval;
  retry : bool;
  registered_session : Session;
  sequence_id : Z
}.

(** The attributes of an object on which [__init__] has assigned nothing
    yet; every one is assigned before it is read. *)
Definition blank : BonsaiConnector :=
  {| client_config :=
       {| cfg_workspace := ""; simulator_context := PNone;
          enable_logging := false |};
     workspace := ""; verbose := false; sim_interface := PNone;
     retry := false; registered_session := {| session_id := "" |};
     sequence_id := 0 |}.

Record machine (W : Type) : Type := {
  self : BonsaiConnector;
  world : W;
  calls : list call;
  logs : list log_record
}.
Arguments self {W}.
Arguments world {W}.
Arguments calls {W}.
Arguments logs {W}.

(** A computation returns or raises, both with the machine it leaves
    behind (what a method assigned before it raised stays assigned);
    [None] is a computation that does not come back, which none of the
    methods below is: their recursion ends at the interpreter's limit. *)
Definition M (W A : Type) : Type :=
  machine W -> option (result A * machine W).

Definition ret {W A} (a : A) : M W A := fun m => Some (Ok a, m).

Definition raise {W A} (e : exn) : M W A := fun m => Some (Raise e, m).

Definition bind {W A B} (c : M W A) (k : A -> M W B) : M W B :=
  fun m =>
    match c m with
    | Some (Ok a, m') => k a m'
    | Some (Raise e, m') => Some (Raise e, m')
    | None => None
    end.

Declare Scope py_scope.
Delimit Scope py_scope with py.
Notation "x <- c ;; k" := (bind c (fun x => k))
  (at level 100, c at next level, right associativity) : py_scope.
Notation "c ;; k" := (bind c (fun _ => k))
  (at level 100, right associativity) : py_scope.
Local Open Scope py_scope.

Definition lift {W A} (r : result A) : M W A :=
  fun m => Some (r, m).

Definition get_self {W A} (f : BonsaiConnector -> A) : M W A :=
  fun m => Some (Ok (f (self m)), m).

Definition set_self {W} (f : BonsaiConnector -> BonsaiConnector) : M W unit :=
  fun m =>
    Some (Ok tt, {| self := f (self m); world := world m;
                    calls := calls m; logs := logs m |}).

Definition log {W} (l : level) (p : log_payload) : M W unit :=
  fun m =>
    Some (Ok tt, {| self := self m; world := world m; calls := calls m;
                    logs := logs m ++ [(l, p)] |}).

Definition log_info {W} (msg : fstring) : M W unit := log INFO (LogMsg msg).
Definition log_debug {W} (msg : fstring) : M W unit := log DEBUG (LogMsg msg).
Definition log_warning {W} (p : log_payload) : M W unit := log WARNING p.

(** One transport operation: the call is recorded, the platform moves. *)
Definition transport {W A} (c : call) (op : W -> result A * W) : M W A :=
  fun m =>
    let (r, w') := op (world m) in
    Some (r, {| self := self m; world := w';
                calls := calls m ++ [c]; logs := logs m |}).

(** Attribute assignments. *)
Definition with_client_config (v : BonsaiClientConfig) (c : BonsaiConnector) :=
  {| client_config := v; workspace := workspace c; verbose := verbose c;
     sim_interface := sim_interface c; retry := retry c;
     registered_session := registered_session c;
     sequence_id := sequence_id c |}.

Definition with_workspace (v : string) (c : BonsaiConnector) :=
  {| client_config := client_config c; workspace := v; verbose := verbose c;
     sim_interface := sim_interface c; retry := retry c;
     registered_session := registered_session c;
     sequence_id := sequence_id c |}.

Definition with_verbose (v : bool) (c : BonsaiConnector) :=
  {| client_config := client_config c; workspace := workspace c; verbose := v;
     sim_interface := sim_interface c; retry := retry c;
     registered_session := registered_session c;
     sequence_id := sequence_id c |}.

Definition with_sim_interface (v : pyval) (c : BonsaiConnector) :=
  {| client_config := client_config c; workspace := workspace c;
     verbose := verbose c; sim_interface := v; retry := retry c;
     registered_session := registered_session c;
     sequence_id := sequence_id c |}.

Definition with_retry (v : bool) (c : BonsaiConnector) :=
  {| client_config := client_config c; workspace := workspace c;
     verbose := verbose c; sim_interface := sim_interface c; retry := v;
     registered_session := registered_session c;
     sequence_id := sequence_id c |}.

Definition with_registered_session (v : Session) (c : BonsaiConnector) :=
  {| client_config := client_config c; workspace := workspace c;
     verbose := verbose c; sim_interface := sim_interface c; retry := retry c;
     registered_session := v; sequence_id := sequence_id c |}.

Definition with_sequence_id (v : Z) (c : BonsaiConnector) :=
  {| client_config := client_config c; workspace := workspace c;
     verbose := verbose c; sim_interface := sim_interface c; retry := retry c;
     registered_session := registered_session c; sequence_id := v |}.

(** ** Attribute access *)

Definition no_attribute {A} (t : pytype) (name : string) : result A :=
  Raise (AttributeError
           [Lit "'"; Lit (type_name t); Lit "' object has no attribute '";
            Lit name; Lit "'"]).

(** A key of a dict equals the string [s]. *)
Definition key_is (s : string) (k : pyval) : bool :=
  match k with
  | PStr t => String.eqb t s
  | _ => false
  end.

Fixpoint dict_get (items : list (pyval * pyval)) (key : string)
    (default : pyval) : pyval :=
  match items with
  | [] => default
  | (k, v) :: rest => if key_is key k then v else dict_get rest key default
  end.

(** [x.get(key, default)]: of the types [validate_state] lets through only
    dict has the method. *)
Definition py_get (x : pyval) (key : string) (default : pyval)
    : result pyval :=
  match x with
  | PDict items => Ok (dict_get items key default)
  | _ => no_attribute (type_of x) "get"
  end.

(** [o.name] where [o] is a payload of the event or [None]. *)
Definition payload_attr {P} (o : option P) (f : P -> pyval) (name : string)
    : result pyval :=
  match o with
  | Some p => Ok (f p)
  | None => no_attribute TNone name
  end.

(** ** The methods of BonsaiConnector *)

Section Connector.

Context {W : Type}.
Variable client : BonsaiClient W.
Variable schema_env : SchemaEnv.

Definition is_ValidationError (e : exn) : bool :=
  match e with
  | ValidationError _ => true
  | _ => false
  end.

Definition validate_interface (sim_interface : pyval) : M W pyval :=
  iface_text <- lift (read_text schema_env "siminterface.schema.json") ;;
  schema_iface <- lift (json_loads schema_env iface_text) ;;
  types_text <- lift (read_text schema_env "simtypes.schema.json") ;;
  schema_types <- lift (json_loads schema_env types_text) ;;
  let schema_store := [("/simtypes.schema.json", schema_types)] in
  let resolver := {| referrer := schema_iface; store := schema_store |} in
  match jsonschema_validate schema_env sim_interface schema_iface resolver with
  | None =>
      log_info [Lit "JSON schema for sim_interface successfully validated."]
  | Some exc =>
      if is_ValidationError exc then
        log_warning (LogMsg [Lit "Errors validating sim_interface JSON schema."]) ;;
        log_warning (LogExc exc)
      else
        log_warning
          (LogMsg [Lit "Something went wrong when validating sim_interface schema."]) ;;
        log_warning (LogExc exc)
  end ;;
  ret sim_interface.

Definition register_sim : M W unit :=
  context <- get_self (fun c => simulator_context (client_config c)) ;;
  iface <- get_self sim_interface ;;
  reg_info <- lift (SimulatorInterface_new client context iface) ;;
  ws <- get_self workspace ;;
  session <- transport (CallCreate ws reg_info)
               (session_create client ws reg_info) ;;
  set_self (with_registered_session session) ;;
  set_self (with_sequence_id 1) ;;
  sid <- get_self (fun c => session_id (registered_session c)) ;;
  log_info [Lit "Created session with session_id "; Fmt (PStr sid)].

Definition unknown_event (t : string) : exn :=
  TypeError [Lit "Unknown event type. Received "; Fmt (PStr t)].

Definition revoked (d : pyval) : exn :=
  RuntimeError
    [PStr "Simulator Session unregistered by platform because of "; d].

(** [levels] is the recursion limit as the call of [validate_state] in
    this activation sees it.  The call of [next_event] to itself runs one
    frame deeper, so with one level less; with none left that call cannot
    be made (and is not reached: [validate_state] has raised before). *)
Fixpoint next_event (levels : nat) (state : pyval) : M W BonsaiEvent :=
      lift (validate_state levels state) ;;
      seq <- get_self sequence_id ;;
      halted <- lift (py_get state "halted" (PBool false)) ;;
      let sim_state :=
        {| SimulatorState.sequence_id := seq;
           SimulatorState.state := state;
           SimulatorState.halted := halted |} in
      ws <- get_self workspace ;;
      sid <- get_self (fun c => session_id (registered_session c)) ;;
      event <- transport (CallAdvance ws sid sim_state)
                 (session_advance client ws sid sim_state) ;;
      set_self (with_sequence_id (Event.sequence_id event)) ;;
      if Event.type event =? "Idle" then
        log_info [Lit "Idling..."] ;;
        ret {| event_type := IDLE; event_content := PDict [] |}
      else if Event.type event =? "EpisodeStart" then
        log_info [Lit "Start episode"] ;;
        content <- lift (payload_attr (Event.episode_start event) config
                           "config") ;;
        ret {| event_type := EPISODE_START; event_content := content |}
      else if Event.type event =? "EpisodeStep" then
        log_info [Lit "Episode step"] ;;
        content <- lift (payload_attr (Event.episode_step event) action
                           "action") ;;
        ret {| event_type := EPISODE_STEP; event_content := content |}
      else if Event.type event =? "EpisodeFinish" then
        log_info [Lit "Finish step"] ;;
        content <- lift (payload_attr (Event.episode_finish event) reason
                           "reason") ;;
        ret {| event_type := EPISODE_FINISH; event_content := content |}
      else
        (if Event.type event =? "Unregister" then
           log_info [Lit "Simulator Session unregistered by the platform"] ;;
           r <- get_self retry ;;
           if r then
             log_info [Lit "Re-registering..."] ;;
             register_sim ;;
             match levels with
             | S deeper => next_event deeper state
             | O => raise RecursionError
             end ;;
             ret tt
           else
             d <- lift (payload_attr (Event.unregister event) details
                          "details") ;;
             raise (revoked d)
         else ret tt) ;;
        raise (unknown_event (Event.type event)).

Definition close_session : M W unit :=
  log_debug [Lit "Closing session..."] ;;
  ws <- get_self workspace ;;
  sid <- get_self (fun c => session_id (registered_session c)) ;;
  transport (CallDelete ws sid) (session_delete client ws sid).

End Connector.

(** [__init__].  [BonsaiClientConfig(enable_logging=verbose)], which reads
    the environment, and [BonsaiClient(config)] belong to the client
    library: each returns or raises.  The client is the one the object
    holds as [self.client], with which its methods run from then on; it
    is what the computation returns. *)
Section Construction.

Context {W : Type}.
Variable schema_env : SchemaEnv.
Variable BonsaiClientConfig_new : bool -> result BonsaiClientConfig.
Variable BonsaiClient_new : BonsaiClientConfig -> result (BonsaiClient W).

Definition init (iface : pyval) (retry_ verbose_ : bool)
    : M W (BonsaiClient W) :=
  config <- lift (BonsaiClientConfig_new verbose_) ;;
  set_self (with_client_config config) ;;
  ws <- get_self (fun c => cfg_workspace (client_config c)) ;;
  set_self (with_workspace ws) ;;
  client <- lift (BonsaiClient_new config) ;;
  set_self (with_verbose verbose_) ;;
  checked <- validate_interface schema_env iface ;;
  set_self (with_sim_interface checked) ;;
  set_self (with_retry retry_) ;;
  register_sim client ;;
  ret client.

End Construction.

(** ** Vocabulary of the properties *)

(** The values the code's [allowed_types] admit at every node: bool, int,
    float, and lists and dicts of such (the keys of a dict are free). *)
Inductive plain_value : pyval -> Prop :=
  | plain_bool b : plain_value (PBool b)
  | plain_int n : plain_value (PInt n)
  | plain_float x : plain_value (PFloat x)
  | plain_list items :
      Forall plain_value items -> plain_value (PList items)
  | plain_dict items :
      Forall (fun kv => plain_value (snd kv)) items ->
      plain_value (PDict items).

(** The grammar of the specification's validator contract: the same with
    strings as leaves, and dicts keyed by strings. *)
Inductive spec_grammar : pyval -> Prop :=
  | grammar_bool b : spec_grammar (PBool b)
  | grammar_int n : spec_grammar (PInt n)
  | grammar_float x : spec_grammar (PFloat x)
  | grammar_str s : spec_grammar (PStr s)
  | grammar_list items :
      Forall spec_grammar items -> spec_grammar (PList items)
  | grammar_dict items :
      Forall (fun kv => (exists s, fst kv = PStr s) /\ spec_grammar (snd kv))
        items ->
      spec_grammar (PDict items).

(** [u] is the value itself, or sits in it below any nesting of list items
    and dict values. *)
Inductive occurs (u : pyval) : pyval -> Prop :=
  | occurs_here : occurs u u
  | occurs_item items x :
      In x items -> occurs u x -> occurs u (PList items)
  | occurs_val items k x :
      In (k, x) items -> occurs u x -> occurs u (PDict items).

(** The first node, depth first and in item order, whose type is not
    allowed; the traversal does not enter a node of a type that is not
    allowed. *)
(** The levels a complete traversal of [v] takes: one for [v], and below
    it those of its deepest item. *)
Definition max_of {A} (f : A -> nat) : list A -> nat :=
  fix loop (l : list A) : nat :=
    match l with
    | [] => O
    | x :: rest => Nat.max (f x) (loop rest)
    end.

Fixpoint levels_needed (v : pyval) : nat :=
  match v with
  | PList items => S (max_of levels_needed items)
  | PDict items => S (max_of (fun '(_, x) => levels_needed x) items)
  | _ => 1
  end.

(** [u] is the value itself or sits anywhere in it: an item of a list, a
    value of a dict, or a key of a dict. *)
Inductive contains (u : pyval) : pyval -> Prop :=
  | contains_here : contains u u
  | contains_item items x :
      In x items -> contains u x -> contains u (PList items)
  | contains_val items k x :
      In (k, x) items -> contains u x -> contains u (PDict items)
  | contains_key items k x :
      In (k, x) items -> contains u k -> contains u (PDict items).

Definition find_first {A} (f : A -> option pyval) : list A -> option pyval :=
  fix loop (l : list A) : option pyval :=
    match l with
    | [] => None
    | x :: rest =>
        match f x with
        | Some u => Some u
        | None => loop rest
        end
    end.

Fixpoint first_invalid (v : pyval) : option pyval :=
  if has_invalid_type v then Some v
  else
    match v with
    | PList items => find_first first_invalid items
    | PDict items => find_first (fun '(_, x) => first_invalid x) items
    | _ => None
    end.

(** What [validate_state] does when the recursion limit does not cut the
    traversal short. *)
Definition unlimited (v : pyval) : result unit :=
  match first_invalid v with
  | Some u => Raise (reject u)
  | None => Ok tt
  end.

Section Discipline.

Context {W : Type}.
Variable client : BonsaiClient W.

(** Replay of the transport calls [sent] on the platform [w], where
    [expected] is the sequence number the platform dictates next: 1 after
    a session was created, the number of its last response after an
    advance.  [None] when an advance call carries another number. *)
Fixpoint follows_platform (w : W) (expected : Z) (sent : list call)
    : option (W * Z) :=
  match sent with
  | [] => Some (w, expected)
  | CallCreate ws body :: rest =>
      match session_create client ws body w with
      | (Ok _, w') => follows_platform w' 1 rest
      | (Raise _, w') => follows_platform w' expected rest
      end
  | CallAdvance ws sid body :: rest =>
      if SimulatorState.sequence_id body =? expected then
        match session_advance client ws sid body w with
        | (Ok event, w') => follows_platform w' (Event.sequence_id event) rest
        | (Raise _, w') => follows_platform w' expected rest
        end
      else None
  | CallDelete ws sid :: rest =>
      follows_platform (snd (session_delete client ws sid w)) expected rest
  end%Z.

(** From [m] to [m'] the transport calls were made in the platform's
    sequence, and the object stores the number the platform dictates
    next. *)
Definition tracks (m m' : machine W) : Prop :=
  exists sent,
    calls m' = (calls m ++ sent)%list
    /\ follows_platform (world m) (sequence_id (self m)) sent
       = Some (world m', sequence_id (self m')).

(** What [jsonschema.validate] answers on the descriptor, the two schema
    documents being loaded. *)
Definition outcome_of (schema_env : SchemaEnv)
    (schema_iface schema_types sim_interface : pyval) : option exn :=
  jsonschema_validate schema_env sim_interface schema_iface
    {| referrer := schema_iface;
       store := [("/simtypes.schema.json", schema_types)] |}.

(** The advisory log of [validate_interface] for each outcome of
    [jsonschema.validate]. *)
Definition advisory_log (outcome : option exn) : list log_record :=
  match outcome with
  | None =>
      [(INFO, LogMsg [Lit "JSON schema for sim_interface successfully validated."])]
  | Some exc =>
      [(WARNING,
        LogMsg [Lit (if is_ValidationError exc
                     then "Errors validating sim_interface JSON schema."
                     else "Something went wrong when validating sim_interface schema.")]);
       (WARNING, LogExc exc)]
  end.



(** The body of the advance request [next_event] builds on [m]. *)
Definition request (m : machine W) (state halted : pyval) : SimulatorState.t :=
  {| SimulatorState.sequence_id := sequence_id (self m);
     SimulatorState.state := state;
     SimulatorState.halted := halted |}.

Definition advance_of (m : machine W) (state halted : pyval)
    : W -> result Event.t * W :=
  session_advance client (workspace (self m))
    (session_id (registered_session (self m))) (request m state halted).

(** The advance call of [next_event] on [m], as recorded. *)
Definition advance_call (m : machine W) (state halted : pyval) : call :=
  CallAdvance (workspace (self m))
    (session_id (registered_session (self m))) (request m state halted).

(** The machine once [session.advance] has been called and the platform
    has moved to [w']. *)
Definition called (m : machine W) (state halted : pyval) (w' : W)
    : machine W :=
  {| self := self m; world := w';
     calls := calls m ++ [advance_call m state halted];
     logs := logs m |}.

(** The machine once [session.advance] has answered [event] and
    [next_event] has stored its sequence number. *)
Definition advanced (m : machine W) (state halted : pyval) (event : Event.t)
    (w' : W) : machine W :=
  {| self := with_sequence_id (Event.sequence_id event) (self m);
     world := w';
     calls := calls m ++ [advance_call m state halted];
     logs := logs m |}.

(** A kind that is none of the five the code tests for. *)
Definition unknown_kind (t : string) : Prop :=
  t <> "Idle" /\ t <> "EpisodeStart" /\ t <> "EpisodeStep"
  /\ t <> "EpisodeFinish" /\ t <> "Unregister".

Definition logged (m : machine W) (entries : list log_record) : machine W :=
  {| self := self m; world := world m; calls := calls m;
     logs := logs m ++ entries |}.

End Discipline.

(** ** A platform that answers from a script *)

Record script : Type := {
  sessions : list (result Session);
  events : list (result Event.t)
}.

Definition out_of_script {A} : result A :=
  Raise (OtherError "HttpResponseError" "no response").

(** The registration body as the scripted platforms build it: the
    keyword [name] is required, and the keywords come from a dict. *)
Definition interface_of (context d : pyval) : result SimulatorInterface.t :=
  match d with
  | PDict items =>
      if existsb (fun kv => key_is "name" (fst kv)) items then
        Ok {| SimulatorInterface.simulator_context := context;
              SimulatorInterface.kwargs := d |}
      else
        Raise (TypeError
                 [Lit "__init__() missing 1 required keyword-only argument: 'name'"])
  | _ =>
      Raise (TypeError [Lit "argument after ** must be a mapping, not ";
                        Lit (type_name (type_of d))])
  end.

Definition scripted : BonsaiClient script :=
  {| SimulatorInterface_new := interface_of;
     session_create := fun _ _ w =>
       match sessions w with
       | [] => (out_of_script, w)
       | r :: rest => (r, {| sessions := rest; events := events w |})
       end;
     session_advance := fun _ _ _ w =>
       match events w with
       | [] => (out_of_script, w)
       | r :: rest => (r, {| sessions := sessions w; events := rest |})
       end;
     session_delete := fun _ _ w => (Ok tt, w) |}.

Definition event_of (kind : string) (seq : Z) : Event.t :=
  {| Event.type := kind; Event.sequence_id := seq;
     Event.episode_start := None; Event.episode_step := None;
     Event.episode_finish := None; Event.unregister := None |}.

Definition unregister_event (seq : Z) (why : string) : Event.t :=
  {| Event.type := "Unregister"; Event.sequence_id := seq;
     Event.episode_start := None; Event.episode_step := None;
     Event.episode_finish := None;
     Event.unregister := Some {| details := PStr why |} |}.

Definition start_event (seq : Z) (cfg : pyval) : Event.t :=
  {| Event.type := "EpisodeStart"; Event.sequence_id := seq;
     Event.episode_start := Some {| config := cfg |};
     Event.episode_step := None; Event.episode_finish := None;
     Event.unregister := None |}.

(** A registered connector of workspace "ws", session "s1", sequence
    number [seq]. *)
Definition connector (retry_ : bool) (seq : Z) : BonsaiConnector :=
  {| client_config :=
       {| cfg_workspace := "ws"; simulator_context := PStr "ctx";
          enable_logging := false |};
     workspace := "ws"; verbose := false;
     sim_interface := PDict [(PStr "name", PStr "sim"); (PStr "timeout", PInt 60)];
     retry := retry_;
     registered_session := {| session_id := "s1" |};
     sequence_id := seq |}.

Definition machine_of (c : BonsaiConnector) (w : script) : machine script :=
  {| self := c; world := w; calls := []; logs := [] |}.

(** A snapshot with the halted flag set, and the platform that hands out
    the session s2 and answers the advance calls with [l]. *)
Definition snapshot : pyval :=
  PDict [(PStr "x", PInt 1); (PStr "halted", PBool true)].

Definition answers (l : list (result Event.t)) : script :=
  {| sessions := [Ok {| session_id := "s2" |}]; events := l |}.

(** The machine on which the retried call of [next_event] runs in the run
    of the retry: registered again as session s2, sequence number 1. *)
Definition reregistered : machine script :=
  {| self := with_sequence_id 1
               (with_registered_session {| session_id := "s2" |}
                  (connector true 5));
     world := {| sessions := []; events := [Ok (event_of "Idle" 2)] |};
     calls := [CallAdvance "ws" "s1"
                 {| SimulatorState.sequence_id := 1;
                    SimulatorState.state := snapshot;
                    SimulatorState.halted := PBool true |};
               CallCreate "ws"
                 {| SimulatorInterface.simulator_context := PStr "ctx";
                    SimulatorInterface.kwargs := sim_interface (connector true 1) |}];
     logs := [(INFO, LogMsg [Lit "Simulator Session unregistered by the platform"]);
              (INFO, LogMsg [Lit "Re-registering..."]);
              (INFO, LogMsg [Lit "Created session with session_id ";
                             Fmt (PStr "s2")])] |}.

Definition schema_files (outcome : option exn) : SchemaEnv :=
  {| read_text := fun name => Ok name;
     json_loads := fun _ => Ok (PDict []);
     jsonschema_validate := fun _ _ _ => outcome |}.

(** ** The context manager *)

(** The class of an exception, by name; [KeyboardInterrupt] and the
    failures of the transport are [OtherError]s. *)
Definition exn_class (e : exn) : string :=
  match e with
  | TypeError _ => "TypeError"
  | AttributeError _ => "AttributeError"
  | RuntimeError _ => "RuntimeError"
  | ValidationError _ => "ValidationError"
  | RecursionError => "RecursionError"
  | OtherError cls _ => cls
  end.

(** [bool(x)] on the values of the builtin types. *)
Definition truthy (x : pyval) : bool :=
  match x with
  | PNone => false
  | PBool b => b
  | PInt n => negb (n =? 0)%Z
  | PFloat (S754_zero _) => false
  | PFloat _ => true
  | PStr s => negb (s =? "")
  | PComplex (S754_zero _) (S754_zero _) => false
  | PComplex _ _ => true
  | PList items => match items with [] => false | _ => true end
  | PDict items => match items with [] => false | _ => true end
  | PObj _ _ => true
  | PBroken _ _ _ => true
  end.

Section ContextManager.

Context {W : Type}.
Variable client : BonsaiClient W.

Definition __enter__ : M W BonsaiConnector := get_self (fun c => c).

(** [type_] is the class of the exception that left the block, [None]
    when none did; the method returns [True] or, by falling off its end,
    [None]. *)
Definition __exit__ (type_ : option string) : M W pyval :=
  sid <- get_self (fun c => session_id (registered_session c)) ;;
  log_info [Lit "Closing session with session_id "; Fmt (PStr sid)] ;;
  close_session client ;;
  match type_ with
  | Some cls => if cls =? "KeyboardInterrupt" then ret (PBool true) else ret PNone
  | None => ret PNone
  end.

(** [with connector: body], the statement the two methods are written
    for: the block runs, [__exit__] is called with the class of the
    exception that left it, and that exception is raised again unless
    [__exit__] returned a true value.  The result is [None] when the
    exception was swallowed. *)
Definition py_with {A} (body : M W A) : M W (option A) :=
  fun m =>
    match __enter__ m with
    | Some (Ok _, m0) =>
        match body m0 with
        | Some (Ok a, m1) =>
            match __exit__ None m1 with
            | Some (Ok _, m2) => Some (Ok (Some a), m2)
            | Some (Raise e, m2) => Some (Raise e, m2)
            | None => None
            end
        | Some (Raise e, m1) =>
            match __exit__ (Some (exn_class e)) m1 with
            | Some (Ok flag, m2) =>
                if truthy flag then Some (Ok None, m2) else Some (Raise e, m2)
            | Some (Raise e', m2) => Some (Raise e', m2)
            | None => None
            end
        | None => None
        end
    | Some (Raise e, m0) => Some (Raise e, m0)
    | None => None
    end.

End ContextManager.

(** ** More vocabulary *)

(** [x] below [n] levels of a one-item list holding a one-item dict. *)
Fixpoint wrap (n : nat) (x : pyval) : pyval :=
  match n with
  | O => x
  | S k => PList [PDict [(PStr "k", wrap k x)]]
  end.

(** The delete call of [close_session] and [__exit__] on [m]. *)
Definition delete_call {W} (m : machine W) : call :=
  CallDelete (workspace (self m)) (session_id (registered_session (self m))).


(** The value of the repository's test of a nested complex number. *)
Definition invalid_nested : pyval :=
  PDict [(PStr "invalid_nested",
          PDict [(PStr "a",
                  PDict [(PStr "b",
                          PComplex (S754_finite false 1 0)
                                   (S754_finite false 3 0))])])].

(** * Properties of the validator *)

Example validate_accepted_int :
  validate_state 10 (PDict [(PStr "accepted", PInt 1)]) = Ok tt.
Proof. reflexivity. Qed.

Example validate_accepted_nested :
  validate_state 10
    (PDict [(PStr "accepted", PDict [(PStr "dict", PInt 1)])]) = Ok tt.
Proof. reflexivity. Qed.

Example validate_invalid_numpy :
  validate_state 10
    (PDict [(PStr "invalid", PList [PObj "numpy.int64" "2"; PObj "numpy.int64" "5"])])
  = Raise (unsupported (PObj "numpy.int64" "2")).
Proof. reflexivity. Qed.

Example validate_too_deep :
  validate_state 3 (PDict [(PStr "a", PDict [(PStr "b", PList [PInt 1])])])
  = Raise RecursionError.
Proof. reflexivity. Qed.

Lemma validate_state_list levels items :
  validate_state (S levels) (PList items)
  = for_each (validate_state levels) items.
Proof. reflexivity. Qed.

Lemma validate_state_dict levels items :
  validate_state (S levels) (PDict items)
  = for_each (fun '(_, val) => validate_state levels val) items.
Proof. reflexivity. Qed.

Lemma first_invalid_list items :
  first_invalid (PList items) = find_first first_invalid items.
Proof. reflexivity. Qed.

Lemma first_invalid_dict items :
  first_invalid (PDict items)
  = find_first (fun '(_, x) => first_invalid x) items.
Proof. reflexivity. Qed.

Lemma for_each_ok {A} (body : A -> result unit) (l : list A) :
  Forall (fun x => body x = Ok tt) l -> for_each body l = Ok tt.
Proof.
  induction 1 as [|x l Hx _ IH]; simpl; [reflexivity|].
  rewrite Hx. exact IH.
Qed.

Lemma for_each_ok_inv {A} (body : A -> result unit) (l : list A) :
  for_each body l = Ok tt -> Forall (fun x => body x = Ok tt) l.
Proof.
  induction l as [|x l IH]; simpl; intros H; constructor.
  - destruct (body x) as [[]|e]; [reflexivity|discriminate].
  - apply IH. destruct (body x); [assumption|discriminate].
Qed.

Lemma max_of_le {A} (f : A -> nat) (l : list A) (x : A) :
  In x l -> f x <= max_of f l.
Proof.
  induction l as [|y l IH]; intros Hin; [destruct Hin|].
  cbn [max_of]. destruct Hin as [->|Hin]; [lia|].
  specialize (IH Hin). lia.
Qed.

Lemma max_of_bound {A} (f : A -> nat) (l : list A) (d : nat) :
  (forall x, In x l -> f x <= d) -> max_of f l <= d.
Proof.
  induction l as [|y l IH]; intros H; cbn [max_of]; [lia|].
  apply Nat.max_lub; [apply H; left; reflexivity|].
  apply IH. intros x Hx. apply H. right. exact Hx.
Qed.

(** With the levels a complete traversal takes, the recursion limit plays
    no part: [validate_state] raises for the first node of a type that is
    not allowed, and returns when there is none. *)
Lemma validate_state_enough (v : pyval) :
  forall levels, levels_needed v <= levels ->
                 validate_state levels v = unlimited v.
Proof.
  induction v as [| | | | | |items IH|items IH| |] using pyval_ind;
    intros levels Hl;
    (destruct levels as [|d]; [cbn in Hl; lia|]); try reflexivity.
  - rewrite validate_state_list. unfold unlimited.
    rewrite first_invalid_list.
    cbn [levels_needed] in Hl. apply le_S_n in Hl.
    induction IH as [|x l Hx _ IHl]; [reflexivity|].
    cbn [max_of] in Hl. cbn [for_each find_first].
    rewrite (Hx d) by lia. unfold unlimited.
    destruct (first_invalid x); [reflexivity|]. apply IHl. lia.
  - rewrite validate_state_dict. unfold unlimited.
    rewrite first_invalid_dict.
    cbn [levels_needed] in Hl. apply le_S_n in Hl.
    induction IH as [|[k x] l Hx _ IHl]; [reflexivity|].
    cbn [max_of] in Hl. cbn [for_each find_first]. cbn [snd] in Hx.
    rewrite (Hx d) by lia. unfold unlimited.
    destruct (first_invalid x); [reflexivity|]. apply IHl. lia.
Qed.

(** Whatever the levels, the recursion limit is the only thing that
    changes the outcome. *)
Lemma validate_state_limit_or (v : pyval) :
  forall levels,
    validate_state levels v = Raise RecursionError
    \/ validate_state levels v = unlimited v.
Proof.
  induction v as [| | | | | |items IH|items IH| |] using pyval_ind;
    intros levels; (destruct levels as [|d]; [left; reflexivity|]);
    try (right; reflexivity).
  - rewrite validate_state_list. unfold unlimited.
    rewrite first_invalid_list.
    induction IH as [|x l Hx _ IHl]; [right; reflexivity|].
    cbn [for_each find_first].
    destruct (Hx d) as [E|E]; rewrite E; [left; reflexivity|].
    unfold unlimited. destruct (first_invalid x); [right; reflexivity|].
    exact IHl.
  - rewrite validate_state_dict. unfold unlimited.
    rewrite first_invalid_dict.
    induction IH as [|[k x] l Hx _ IHl]; [right; reflexivity|].
    cbn [for_each find_first]. cbn [snd] in Hx.
    destruct (Hx d) as [E|E]; rewrite E; [left; reflexivity|].
    unfold unlimited. destruct (first_invalid x); [right; reflexivity|].
    exact IHl.
Qed.

(** A traversal that returns was a complete one. *)
Lemma validate_state_ok_levels (v : pyval) :
  forall levels, validate_state levels v = Ok tt -> levels_needed v <= levels.
Proof.
  induction v as [| | | | | |items IH|items IH| |] using pyval_ind;
    intros levels H; (destruct levels as [|d]; [discriminate H|]);
    try (cbn; lia).
  - rewrite validate_state_list in H. apply for_each_ok_inv in H.
    cbn [levels_needed]. apply le_n_S, max_of_bound.
    rewrite Forall_forall in *. intros x Hx. apply IH; auto.
  - rewrite validate_state_dict in H. apply for_each_ok_inv in H.
    cbn [levels_needed]. apply le_n_S, max_of_bound.
    rewrite Forall_forall in *. intros [k x] Hx.
    apply (IH (k, x) Hx), (H (k, x) Hx).
Qed.

(** The node [first_invalid] finds is in the value and of a type that is
    not allowed. *)
Lemma first_invalid_sound (v u : pyval) :
  first_invalid v = Some u -> occurs u v /\ has_invalid_type u = true.
Proof.
  revert u.
  induction v as [| | | | | |items IH|items IH| |] using pyval_ind;
    intros u H; try (simpl in H; inversion H; subst; split;
                     [apply occurs_here|reflexivity]);
    try discriminate.
  - rewrite first_invalid_list in H.
    induction IH as [|x l Hx _ IHl]; simpl in H; [discriminate|].
    destruct (first_invalid x) as [u'|] eqn:E.
    + inversion H; subst. destruct (Hx u eq_refl) as [Ho Hi].
      split; [|exact Hi]. apply occurs_item with x; [left; reflexivity|exact Ho].
    + destruct (IHl H) as [Ho Hi]. split; [|exact Hi].
      inversion Ho; subst.
      * discriminate.
      * apply occurs_item with x0; [right; assumption|assumption].
  - rewrite first_invalid_dict in H.
    induction IH as [|[k x] l Hx _ IHl]; simpl in H; [discriminate|].
    simpl in Hx.
    destruct (first_invalid x) as [u'|] eqn:E.
    + inversion H; subst. destruct (Hx u eq_refl) as [Ho Hi].
      split; [|exact Hi].
      apply occurs_val with k x; [left; reflexivity|exact Ho].
    + destruct (IHl H) as [Ho Hi]. split; [|exact Hi].
      inversion Ho; subst.
      * discriminate.
      * apply occurs_val with k0 x0; [right; assumption|assumption].
Qed.

(** A value that holds a node of a type that is not allowed has a first
    such node. *)
Lemma first_invalid_complete (v u : pyval) :
  occurs u v -> has_invalid_type u = true -> first_invalid v <> None.
Proof.
  intros Ho Hi. induction Ho as [|items x Hin Ho IH|items k x Hin Ho IH].
  - destruct u; simpl in *; discriminate.
  - rewrite first_invalid_list.
    induction items as [|y l IHl]; [destruct Hin|].
    simpl. destruct Hin as [->|Hin].
    + destruct (first_invalid x); [discriminate|contradiction].
    + destruct (first_invalid y); [discriminate|]. apply IHl, Hin.
  - rewrite first_invalid_dict.
    induction items as [|[k' y] l IHl]; [destruct Hin|].
    simpl. destruct Hin as [E|Hin].
    + inversion E; subst.
      destruct (first_invalid x); [discriminate|contradiction].
    + destruct (first_invalid y); [discriminate|]. apply IHl, Hin.
Qed.

Lemma find_first_none {A} (f : A -> option pyval) (l : list A) :
  Forall (fun x => f x = None) l -> find_first f l = None.
Proof.
  induction 1 as [|x l Hx _ IH]; [reflexivity|].
  cbn [find_first]. rewrite Hx. exact IH.
Qed.

Lemma find_first_none_inv {A} (f : A -> option pyval) (l : list A) :
  find_first f l = None -> Forall (fun x => f x = None) l.
Proof.
  induction l as [|x l IH]; cbn [find_first]; intros H; constructor.
  - destruct (f x); [discriminate|reflexivity].
  - apply IH. destruct (f x); [discriminate|assumption].
Qed.

Lemma plain_value_valid (v : pyval) :
  plain_value v -> first_invalid v = None.
Proof.
  induction v as [| | | | | |items IH|items IH| |] using pyval_ind;
    intros H; inversion H; subst; try reflexivity.
  - rewrite first_invalid_list. apply find_first_none.
    rewrite Forall_forall in *. intros x Hx. apply IH; auto.
  - rewrite first_invalid_dict. apply find_first_none.
    rewrite Forall_forall in *. intros [k x] Hx.
    apply (IH (k, x) Hx), (H1 (k, x) Hx).
Qed.

Lemma valid_plain_value (v : pyval) :
  first_invalid v = None -> plain_value v.
Proof.
  induction v as [| | | | | |items IH|items IH| |] using pyval_ind;
    intros H; try discriminate; try constructor.
  - rewrite first_invalid_list in H. apply find_first_none_inv in H.
    rewrite Forall_forall in *. intros x Hx. apply IH; auto.
  - rewrite first_invalid_dict in H. apply find_first_none_inv in H.
    rewrite Forall_forall in *. intros [k x] Hx.
    apply (IH (k, x) Hx), (H (k, x) Hx).
Qed.

Lemma plain_wrap (n : nat) (x : pyval) :
  plain_value x -> plain_value (wrap n x).
Proof.
  intros Hx. induction n as [|n IH]; [exact Hx|].
  cbn [wrap]. repeat constructor. exact IH.
Qed.

Lemma occurs_wrap (n : nat) (x : pyval) : occurs x (wrap n x).
Proof.
  induction n as [|n IH]; [apply occurs_here|].
  cbn [wrap]. eapply occurs_item; [left; reflexivity|].
  eapply occurs_val; [left; reflexivity|exact IH].
Qed.

Lemma occurs_contains (u v : pyval) : occurs u v -> contains u v.
Proof.
  induction 1 as [|items x Hin _ IH|items k x Hin _ IH].
  - apply contains_here.
  - eapply contains_item; eassumption.
  - eapply contains_val; eassumption.
Qed.

(** C1, as the specification states it, fails twice.  A string is in the
    specification's grammar and [validate_state] raises on it, here on
    the dict of the repository's own test, [{"invalid": "string"}],
    whatever the recursion limit.  And the depth is not free: the integer
    1 below 600 levels of a list holding a dict is in the grammar, and
    with 1000 levels left, which is more than the interpreter's default
    limit of 1000 frames leaves, [validate_state] raises RecursionError
    on it. *)
Lemma validate_state_rejects_str :
  spec_grammar (PDict [(PStr "invalid", PStr "string")])
  /\ validate_state 1000 (PDict [(PStr "invalid", PStr "string")])
     = Raise (TypeError [Lit "Element '"; Fmt (PStr "string");
                         Lit "' not supported: "; FmtType TStr])
  /\ ~ (forall v, spec_grammar v ->
                  exists levels, validate_state levels v = Ok tt)
  /\ plain_value (wrap 600 (PInt 1))
  /\ validate_state 1000 (wrap 600 (PInt 1)) = Raise RecursionError.
Proof.
  assert (G : spec_grammar (PDict [(PStr "invalid", PStr "string")])).
  { apply grammar_dict. constructor; [|constructor].
    split; [exists "invalid"; reflexivity|apply grammar_str]. }
  split; [exact G|]. split; [reflexivity|]. split.
  - intros H. destruct (H _ G) as [levels Hl].
    destruct levels as [|[|levels]]; discriminate Hl.
  - split; [apply plain_wrap; constructor|].
    vm_compute. reflexivity.
Qed.

(** C1, amended: on a value built only from booleans, integers, floats and
    nested lists and dicts of such values (whatever the keys of the dicts,
    so string keys too), [validate_state] returns without raising when the
    nesting is within the recursion limit, that is when the levels of the
    value fit in the levels left, and raises RecursionError when it is
    not.  A string as value is not accepted: [validate_state] raises the
    TypeError naming it. *)
Theorem validate_state_accepts_plain (levels : nat) (v : pyval) :
  plain_value v ->
  validate_state levels v
  = (if (levels_needed v <=? levels)%nat then Ok tt
     else Raise RecursionError)
  /\ (forall s,
        validate_state (S levels) (PStr s)
        = Raise (TypeError [Lit "Element '"; Fmt (PStr s);
                            Lit "' not supported: "; FmtType TStr])).
Proof.
  intros Hp. split; [|reflexivity].
  destruct (levels_needed v <=? levels)%nat eqn:E.
  - apply Nat.leb_le in E. rewrite (validate_state_enough v levels E).
    unfold unlimited. rewrite (plain_value_valid v Hp). reflexivity.
  - apply Nat.leb_gt in E.
    destruct (validate_state_limit_or v levels) as [H|H]; [exact H|].
    exfalso. unfold unlimited in H. rewrite (plain_value_valid v Hp) in H.
    apply validate_state_ok_levels in H. lia.
Qed.

Lemma validate_state_accepts_plain_witness :
  validate_state 500
    (PDict [(PStr "accepted", PList [PFloat (S754_zero true); PBool false;
                                     PDict [(PStr "dict", PInt 1)]])])
  = Ok tt
  /\ (forall s,
        validate_state 501 (PStr s)
        = Raise (TypeError [Lit "Element '"; Fmt (PStr s);
                            Lit "' not supported: "; FmtType TStr])).
Proof.
  apply (validate_state_accepts_plain 500
           (PDict [(PStr "accepted", PList [PFloat (S754_zero true); PBool false;
                                            PDict [(PStr "dict", PInt 1)]])])).
  repeat (constructor; simpl).
Defined.

(** C4, as the specification states it, fails twice.  A complex number
    that is the key of a dict is in the value and [validate_state]
    returns: the keys are not looked at.  And a complex number below 600
    levels of a list holding a dict is not reached with 1000 levels left,
    more than the default limit of 1000 frames leaves: the error is
    RecursionError, which names nothing. *)
Lemma validate_state_misses_key_and_depth :
  contains (PComplex (S754_finite false 1 0) (S754_finite false 3 0))
    (PDict [(PComplex (S754_finite false 1 0) (S754_finite false 3 0), PInt 1)])
  /\ has_invalid_type (PComplex (S754_finite false 1 0) (S754_finite false 3 0))
     = true
  /\ validate_state 1000
       (PDict [(PComplex (S754_finite false 1 0) (S754_finite false 3 0), PInt 1)])
     = Ok tt
  /\ contains (PComplex (S754_finite false 1 0) (S754_finite false 3 0))
       (wrap 600 (PComplex (S754_finite false 1 0) (S754_finite false 3 0)))
  /\ validate_state 1000
       (wrap 600 (PComplex (S754_finite false 1 0) (S754_finite false 3 0)))
     = Raise RecursionError.
Proof.
  split.
  { eapply contains_key; [left; reflexivity|apply contains_here]. }
  split; [reflexivity|]. split; [reflexivity|]. split.
  - apply occurs_contains, occurs_wrap.
  - vm_compute. reflexivity.
Qed.

(** C4, amended: a value that holds, as an item of a list or a value of a
    dict at any nesting (not as a key: keys are not inspected), a node
    whose exact type is not one of bool, dict, float, int and list never
    makes [validate_state] return.  Within the recursion limit it raises
    the TypeError whose message names an offending node of the value and
    the type of that node, the first one met, depth first (or, when
    formatting that node raises, the exception of the formatting); past
    the limit it may raise RecursionError instead. *)
Theorem validate_state_rejects_invalid (levels : nat) (state u : pyval) :
  occurs u state ->
  has_invalid_type u = true ->
  exists bad,
    first_invalid state = Some bad
    /\ occurs bad state
    /\ has_invalid_type bad = true
    /\ (validate_state levels state = Raise RecursionError
        \/ validate_state levels state
           = Raise (match str_raises bad with
                    | Some e => e
                    | None =>
                        TypeError [Lit "Element '"; Fmt bad;
                                   Lit "' not supported: ";
                                   FmtType (type_of bad)]
                    end))
    /\ (levels_needed state <= levels ->
        validate_state levels state
        = Raise (match str_raises bad with
                 | Some e => e
                 | None =>
                     TypeError [Lit "Element '"; Fmt bad;
                                Lit "' not supported: ";
                                FmtType (type_of bad)]
                 end)).
Proof.
  intros Ho Hi.
  destruct (first_invalid state) as [bad|] eqn:E.
  - exists bad. destruct (first_invalid_sound state bad E) as [Hob Hib].
    repeat split; try assumption.
    + destruct (validate_state_limit_or state levels) as [H|H];
        [left; exact H|right].
      rewrite H. unfold unlimited. rewrite E. reflexivity.
    + intros Hl. rewrite (validate_state_enough state levels Hl).
      unfold unlimited. rewrite E. reflexivity.
  - exfalso. exact (first_invalid_complete state u Ho Hi E).
Qed.

Lemma validate_state_rejects_invalid_witness :
  exists bad,
    first_invalid invalid_nested = Some bad
    /\ occurs bad invalid_nested
    /\ has_invalid_type bad = true
    /\ (validate_state 500 invalid_nested = Raise RecursionError
        \/ validate_state 500 invalid_nested
           = Raise (match str_raises bad with
                    | Some e => e
                    | None =>
                        TypeError [Lit "Element '"; Fmt bad;
                                   Lit "' not supported: ";
                                   FmtType (type_of bad)]
                    end))
    /\ (levels_needed invalid_nested <= 500 ->
        validate_state 500 invalid_nested
        = Raise (match str_raises bad with
                 | Some e => e
                 | None =>
                     TypeError [Lit "Element '"; Fmt bad;
                                Lit "' not supported: ";
                                FmtType (type_of bad)]
                 end)).
Proof.
  apply (validate_state_rejects_invalid 500 invalid_nested
           (PComplex (S754_finite false 1 0) (S754_finite false 3 0))).
  - eapply occurs_val; [left; reflexivity|].
    eapply occurs_val; [left; reflexivity|].
    eapply occurs_val; [left; reflexivity|].
    apply occurs_here.
  - reflexivity.
Defined.

(** * Properties of the session engine *)

Section ConnectorFacts.

Context {W : Type}.
Variable client : BonsaiClient W.

Ltac run_next_event :=
  unfold advanced, called, logged, advance_call, advance_of, request in *;
  cbn [next_event];
  unfold bind, lift, get_self, set_self, transport, log_info, log, ret, raise;
  unfold log_record in *;
  cbn [self world calls logs].

(** Up to the answer of the platform, [next_event] is the same for every
    kind of event. *)
Lemma next_event_invalid levels state m e :
  validate_state levels state = Raise e ->
  next_event client levels state m = Some (Raise e, m).
Proof.
  intros Hv. destruct levels; run_next_event; rewrite Hv; reflexivity.
Qed.

Lemma next_event_no_get levels state m e :
  validate_state levels state = Ok tt ->
  py_get state "halted" (PBool false) = Raise e ->
  next_event client levels state m = Some (Raise e, m).
Proof.
  intros Hv Hg. destruct levels; [discriminate Hv|].
  run_next_event. rewrite Hv, Hg. destruct m; reflexivity.
Qed.

Lemma next_event_transport_raises levels state m h e w' :
  validate_state levels state = Ok tt ->
  py_get state "halted" (PBool false) = Ok h ->
  advance_of client m state h (world m) = (Raise e, w') ->
  next_event client levels state m
  = Some (Raise e, called m state h w').
Proof.
  intros Hv Hg Ha. destruct levels; [discriminate Hv|].
  run_next_event. rewrite Hv, Hg.
  cbn [self world calls logs]. rewrite Ha. reflexivity.
Qed.

Section Answered.

#[local] Arguments register_sim : simpl never.

Variables (deeper : nat) (state h : pyval) (m : machine W).
Variables (event : Event.t) (w' : W).
Hypothesis Hvalid : validate_state (S deeper) state = Ok tt.
Hypothesis Hget : py_get state "halted" (PBool false) = Ok h.
Hypothesis Hanswer : advance_of client m state h (world m) = (Ok event, w').

Ltac answered :=
  run_next_event; rewrite Hvalid, Hget; cbn [self world calls logs];
  rewrite Hanswer; cbn [self world calls logs].

Lemma next_event_idle :
  Event.type event = "Idle" ->
  next_event client (S deeper) state m
  = Some (Ok {| event_type := IDLE; event_content := PDict [] |},
          logged (advanced m state h event w')
            [(INFO, LogMsg [Lit "Idling..."])]).
Proof. intros Ht. answered. rewrite Ht. reflexivity. Qed.

Lemma next_event_start :
  Event.type event = "EpisodeStart" ->
  next_event client (S deeper) state m
  = Some (match Event.episode_start event with
          | Some p =>
              Ok {| event_type := EPISODE_START; event_content := config p |}
          | None => no_attribute TNone "config"
          end,
          logged (advanced m state h event w')
            [(INFO, LogMsg [Lit "Start episode"])]).
Proof.
  intros Ht. answered. rewrite Ht. cbn.
  destruct (Event.episode_start event); reflexivity.
Qed.

Lemma next_event_step :
  Event.type event = "EpisodeStep" ->
  next_event client (S deeper) state m
  = Some (match Event.episode_step event with
          | Some p =>
              Ok {| event_type := EPISODE_STEP; event_content := action p |}
          | None => no_attribute TNone "action"
          end,
          logged (advanced m state h event w')
            [(INFO, LogMsg [Lit "Episode step"])]).
Proof.
  intros Ht. answered. rewrite Ht. cbn.
  destruct (Event.episode_step event); reflexivity.
Qed.

Lemma next_event_finish :
  Event.type event = "EpisodeFinish" ->
  next_event client (S deeper) state m
  = Some (match Event.episode_finish event with
          | Some p =>
              Ok {| event_type := EPISODE_FINISH; event_content := reason p |}
          | None => no_attribute TNone "reason"
          end,
          logged (advanced m state h event w')
            [(INFO, LogMsg [Lit "Finish step"])]).
Proof.
  intros Ht. answered. rewrite Ht. cbn.
  destruct (Event.episode_finish event); reflexivity.
Qed.

Lemma next_event_unknown :
  unknown_kind (Event.type event) ->
  next_event client (S deeper) state m
  = Some (Raise (unknown_event (Event.type event)),
          advanced m state h event w').
Proof.
  intros (H1 & H2 & H3 & H4 & H5). answered.
  apply String.eqb_neq in H1, H2, H3, H4, H5.
  rewrite H1, H2, H3, H4, H5. reflexivity.
Qed.

Lemma next_event_revoked :
  Event.type event = "Unregister" ->
  retry (self m) = false ->
  next_event client (S deeper) state m
  = Some (match Event.unregister event with
          | Some u => Raise (revoked (details u))
          | None => no_attribute TNone "details"
          end,
          logged (advanced m state h event w')
            [(INFO, LogMsg [Lit "Simulator Session unregistered by the platform"])]).
Proof.
  intros Ht Hr. answered. rewrite Ht. cbn. rewrite Hr.
  destruct (Event.unregister event); reflexivity.
Qed.

(** With retry: the registration, the call of [next_event] to itself,
    whose event is dropped, and the TypeError of the last line. *)
Lemma next_event_retry :
  Event.type event = "Unregister" ->
  retry (self m) = true ->
  next_event client (S deeper) state m
  = match register_sim client
            (logged (advanced m state h event w')
               [(INFO, LogMsg [Lit "Simulator Session unregistered by the platform"]);
                (INFO, LogMsg [Lit "Re-registering..."])]) with
    | Some (Ok _, m1) =>
        match next_event client deeper state m1 with
        | Some (Ok _, m2) => Some (Raise (unknown_event "Unregister"), m2)
        | Some (Raise e, m2) => Some (Raise e, m2)
        | None => None
        end
    | Some (Raise e, m1) => Some (Raise e, m1)
    | None => None
    end.
Proof.
  intros Ht Hr. answered. rewrite Ht. cbn. rewrite Hr.
  cbn [self world calls logs]. unfold log_record. rewrite <- app_assoc.
  cbn [app].
  match goal with
  | |- match match ?r with _ => _ end with _ => _ end = _ =>
      destruct r as [[[[]|e] m1]|]
  end; try reflexivity.
  destruct (next_event client deeper state m1) as [[[ev|e] m2]|]; reflexivity.
Qed.

End Answered.

(** C5: a state snapshot that [validate_state] rejects makes [next_event]
    raise that very error with the machine as it was: no advance request
    is recorded as sent, the platform has not moved, and the stored
    sequence number and session are the ones before the call. *)
Theorem next_event_validates_first (levels : nat) (state : pyval)
    (m : machine W) (e : exn) :
  validate_state levels state = Raise e ->
  next_event client levels state m = Some (Raise e, m).
Proof. exact (next_event_invalid levels state m e). Qed.

(** C10: on a state snapshot that is a list, [next_event] raises with the
    machine as it was, so before any advance request: the error of
    [validate_state] if the list is not valid and, if it is, the
    AttributeError of the lookup of the halted flag, a list having no
    [get]. *)
Theorem next_event_list_state (levels : nat) (items : list pyval)
    (m : machine W) :
  next_event client levels (PList items) m
  = Some (Raise (match validate_state levels (PList items) with
                 | Raise e => e
                 | Ok _ =>
                     AttributeError
                       [Lit "'"; Lit "list";
                        Lit "' object has no attribute '"; Lit "get";
                        Lit "'"]
                 end), m).
Proof.
  destruct (validate_state levels (PList items)) as [[]|e] eqn:Hv.
  - apply next_event_no_get; [exact Hv|reflexivity].
  - apply next_event_invalid. exact Hv.
Qed.

(** C8: when the platform answers an advance call with kind Unregister and
    retry is off, [next_event] raises the RuntimeError whose arguments end
    with the details the platform gave, and the advance call is the only
    transport call it has made. *)
Theorem next_event_unregister_no_retry (levels : nat) (state h : pyval)
    (m : machine W) (event : Event.t) (w' : W) (u : Unregister) :
  validate_state levels state = Ok tt ->
  py_get state "halted" (PBool false) = Ok h ->
  advance_of client m state h (world m) = (Ok event, w') ->
  Event.type event = "Unregister" ->
  Event.unregister event = Some u ->
  retry (self m) = false ->
  exists m',
    next_event client levels state m
    = Some (Raise (RuntimeError
                     [PStr "Simulator Session unregistered by platform because of ";
                      details u]), m')
    /\ calls m' = (calls m ++ [advance_call m state h])%list
    /\ world m' = w'.
Proof.
  intros Hv Hg Ha Ht Hu Hr.
  destruct levels as [|deeper]; [discriminate Hv|]. eexists. split.
  - rewrite (next_event_revoked deeper state h m event w' Hv Hg Ha Ht Hr).
    rewrite Hu. reflexivity.
  - split; reflexivity.
Qed.

(** C6: once the platform has answered an advance call, [next_event]
    decodes the kind of the answer: Idle gives the event IDLE with the empty
    dict; EpisodeStart, EpisodeStep and EpisodeFinish give the event of the
    same kind with the config, the action and the reason of the answer;
    a kind that is none of these nor Unregister raises the TypeError whose
    message names the kind received. *)
Theorem next_event_decodes (levels : nat) (state h : pyval) (m : machine W)
    (event : Event.t) (w' : W) :
  validate_state levels state = Ok tt ->
  py_get state "halted" (PBool false) = Ok h ->
  advance_of client m state h (world m) = (Ok event, w') ->
  (Event.type event = "Idle" ->
   next_event client levels state m
   = Some (Ok {| event_type := IDLE; event_content := PDict [] |},
           logged (advanced m state h event w')
             [(INFO, LogMsg [Lit "Idling..."])]))
  /\ (forall p, Event.type event = "EpisodeStart" ->
       Event.episode_start event = Some p ->
       next_event client levels state m
       = Some (Ok {| event_type := EPISODE_START; event_content := config p |},
               logged (advanced m state h event w')
                 [(INFO, LogMsg [Lit "Start episode"])]))
  /\ (forall p, Event.type event = "EpisodeStep" ->
       Event.episode_step event = Some p ->
       next_event client levels state m
       = Some (Ok {| event_type := EPISODE_STEP; event_content := action p |},
               logged (advanced m state h event w')
                 [(INFO, LogMsg [Lit "Episode step"])]))
  /\ (forall p, Event.type event = "EpisodeFinish" ->
       Event.episode_finish event = Some p ->
       next_event client levels state m
       = Some (Ok {| event_type := EPISODE_FINISH; event_content := reason p |},
               logged (advanced m state h event w')
                 [(INFO, LogMsg [Lit "Finish step"])]))
  /\ (unknown_kind (Event.type event) ->
       next_event client levels state m
       = Some (Raise (TypeError [Lit "Unknown event type. Received ";
                                 Fmt (PStr (Event.type event))]),
               advanced m state h event w')).
Proof.
  intros Hv Hg Ha. destruct levels as [|deeper]; [discriminate Hv|].
  repeat split.
  - apply next_event_idle; assumption.
  - intros p Ht Hp.
    rewrite (next_event_start deeper state h m event w' Hv Hg Ha Ht), Hp.
    reflexivity.
  - intros p Ht Hp.
    rewrite (next_event_step deeper state h m event w' Hv Hg Ha Ht), Hp.
    reflexivity.
  - intros p Ht Hp.
    rewrite (next_event_finish deeper state h m event w' Hv Hg Ha Ht), Hp.
    reflexivity.
  - apply next_event_unknown; assumption.
Qed.

(** Once the platform has answered and no registration follows (the kind
    is not Unregister, or retry is off), the object [next_event] leaves is
    the one it found with the sequence number of the answer. *)
Lemma next_event_stores_answer (levels : nat) (state h : pyval)
    (m : machine W) (event : Event.t) (w' : W) :
  validate_state levels state = Ok tt ->
  py_get state "halted" (PBool false) = Ok h ->
  advance_of client m state h (world m) = (Ok event, w') ->
  Event.type event <> "Unregister" \/ retry (self m) = false ->
  exists r m',
    next_event client levels state m = Some (r, m')
    /\ self m' = with_sequence_id (Event.sequence_id event) (self m)
    /\ world m' = w'
    /\ calls m' = (calls m ++ [advance_call m state h])%list.
Proof.
  intros Hv Hg Ha Hno. destruct levels as [|deeper]; [discriminate Hv|].
  destruct (string_dec (Event.type event) "Idle") as [Ht|N1].
  { do 2 eexists. split; [apply next_event_idle; eassumption|].
    repeat split. }
  destruct (string_dec (Event.type event) "EpisodeStart") as [Ht|N2].
  { do 2 eexists. split; [apply next_event_start; eassumption|].
    repeat split. }
  destruct (string_dec (Event.type event) "EpisodeStep") as [Ht|N3].
  { do 2 eexists. split; [apply next_event_step; eassumption|].
    repeat split. }
  destruct (string_dec (Event.type event) "EpisodeFinish") as [Ht|N4].
  { do 2 eexists. split; [apply next_event_finish; eassumption|].
    repeat split. }
  destruct (string_dec (Event.type event) "Unregister") as [Ht|N5].
  { destruct Hno as [N|Hr]; [contradiction|].
    do 2 eexists. split; [apply next_event_revoked; eassumption|].
    repeat split. }
  do 2 eexists. split.
  - apply next_event_unknown; try eassumption. repeat split; assumption.
  - repeat split.
Qed.

(** C3, amended: an advance call that raises before the platform has
    answered (the snapshot is not valid, the halted flag cannot be read,
    the transport raises) leaves the stored sequence number and session
    as they were; once the platform has answered, and no registration
    follows, the stored sequence number is the one of the answer and the
    session is unchanged, whether the call then returns an event or
    raises; in particular a call that raises on an unknown kind of event
    has stored the sequence number of that event. *)
Theorem next_event_state_after_raise (levels : nat) (state : pyval)
    (m : machine W) :
  (forall e, validate_state levels state = Raise e ->
     next_event client levels state m = Some (Raise e, m))
  /\ (forall e, validate_state levels state = Ok tt ->
       py_get state "halted" (PBool false) = Raise e ->
       next_event client levels state m = Some (Raise e, m))
  /\ (forall h e w', validate_state levels state = Ok tt ->
       py_get state "halted" (PBool false) = Ok h ->
       advance_of client m state h (world m) = (Raise e, w') ->
       exists m', next_event client levels state m = Some (Raise e, m')
                  /\ self m' = self m)
  /\ (forall h event w', validate_state levels state = Ok tt ->
       py_get state "halted" (PBool false) = Ok h ->
       advance_of client m state h (world m) = (Ok event, w') ->
       Event.type event <> "Unregister" \/ retry (self m) = false ->
       exists r m',
         next_event client levels state m = Some (r, m')
         /\ sequence_id (self m') = Event.sequence_id event
         /\ registered_session (self m') = registered_session (self m)
         /\ (unknown_kind (Event.type event) ->
              r = Raise (unknown_event (Event.type event)))).
Proof.
  split; [|split; [|split]].
  - intros e Hv. apply next_event_invalid, Hv.
  - intros e Hv Hg. apply next_event_no_get; assumption.
  - intros h e w' Hv Hg Ha. eexists. split.
    + apply next_event_transport_raises; eassumption.
    + reflexivity.
  - intros h event w' Hv Hg Ha Hno.
    destruct (next_event_stores_answer levels state h m event w' Hv Hg Ha Hno)
      as (r & m' & Hn & Hs & _ & _).
    exists r, m'. rewrite Hs. repeat split; try assumption.
    intros Hu. destruct levels as [|deeper]; [discriminate Hv|].
    rewrite (next_event_unknown deeper state h m event w' Hv Hg Ha Hu) in Hn.
    inversion Hn. reflexivity.
Qed.

(** C2, what the code does: with retry on, after the registration and the
    call of [next_event] to itself on the same state, the event that call
    returned is dropped and the TypeError for the kind Unregister is
    raised; the registration has stored the sequence number 1. *)
Theorem next_event_retry_drops_event (levels : nat) (state h : pyval)
    (m m1 m2 : machine W) (event : Event.t) (w' : W) (retried : BonsaiEvent) :
  validate_state (S levels) state = Ok tt ->
  py_get state "halted" (PBool false) = Ok h ->
  advance_of client m state h (world m) = (Ok event, w') ->
  Event.type event = "Unregister" ->
  retry (self m) = true ->
  register_sim client
    (logged (advanced m state h event w')
       [(INFO, LogMsg [Lit "Simulator Session unregistered by the platform"]);
        (INFO, LogMsg [Lit "Re-registering..."])]) = Some (Ok tt, m1) ->
  next_event client levels state m1 = Some (Ok retried, m2) ->
  sequence_id (self m1) = 1%Z
  /\ next_event client (S levels) state m
     = Some (Raise (TypeError [Lit "Unknown event type. Received ";
                               Fmt (PStr "Unregister")]), m2).
Proof.
  intros Hv Hg Ha Ht Hr Hreg Hnext. split.
  - revert Hreg. unfold register_sim.
    unfold bind, lift, get_self, set_self, transport, log_info, log, ret.
    cbn [self world calls logs].
    destruct (SimulatorInterface_new client _ _); [|discriminate].
    destruct (session_create client _ _ _) as [[s|e] w1]; [|discriminate].
    intros H. inversion H. reflexivity.
  - rewrite (next_event_retry levels state h m event w' Hv Hg Ha Ht Hr).
    rewrite Hreg, Hnext. reflexivity.
Qed.

(** ** The sequence number *)




Lemma tracks_logged (m : machine W) (entries : list log_record) :
  tracks client m (logged m entries).
Proof. exists []. split; [symmetry; apply app_nil_r|reflexivity]. Qed.







(** ** The advisory check of the descriptor *)

Section Advisory.

Variable schema_env : SchemaEnv.
Variables (iface_text types_text : string) (schema_iface schema_types : pyval).
Hypothesis Hiface_text :
  read_text schema_env "siminterface.schema.json" = Ok iface_text.
Hypothesis Hiface : json_loads schema_env iface_text = Ok schema_iface.
Hypothesis Htypes_text :
  read_text schema_env "simtypes.schema.json" = Ok types_text.
Hypothesis Htypes : json_loads schema_env types_text = Ok schema_types.

Lemma validate_interface_returns (sim_interface : pyval) (m : machine W) :
  validate_interface schema_env sim_interface m
  = Some (Ok sim_interface,
          logged m
            (advisory_log
               (outcome_of schema_env schema_iface schema_types
                  sim_interface))).
Proof.
  unfold validate_interface, outcome_of, advisory_log.
  unfold bind at 1. unfold lift at 1. rewrite Hiface_text.
  unfold bind at 1. unfold lift at 1. rewrite Hiface.
  unfold bind at 1. unfold lift at 1. rewrite Htypes_text.
  unfold bind at 1. unfold lift at 1. rewrite Htypes.
  destruct (jsonschema_validate _ _ _ _) as [exc|].
  - destruct (is_ValidationError exc);
      unfold bind, log_warning, log, ret, logged; cbn [self world calls logs];
      rewrite <- app_assoc; reflexivity.
  - reflexivity.
Qed.

(** C9: whatever [jsonschema.validate] answers on a descriptor (it
    returns, raises ValidationError, raises anything else),
    [validate_interface] raises nothing and returns the descriptor it was
    given, having only written to the log; and [__init__], which has built
    the configuration and the client before it checks the descriptor,
    goes on to register the simulator with that descriptor. *)
Theorem validate_interface_advisory (sim_interface : pyval) (m : machine W)
    (BonsaiClientConfig_new : bool -> result BonsaiClientConfig)
    (BonsaiClient_new : BonsaiClientConfig -> result (BonsaiClient W))
    (retry_ verbose_ : bool) :
  validate_interface schema_env sim_interface m
  = Some (Ok sim_interface,
          {| self := self m; world := world m; calls := calls m;
             logs := logs m ++
               advisory_log
                 (outcome_of schema_env schema_iface schema_types
                    sim_interface) |})
  /\ (forall config built,
        BonsaiClientConfig_new verbose_ = Ok config ->
        BonsaiClient_new config = Ok built ->
        init schema_env BonsaiClientConfig_new BonsaiClient_new
          sim_interface retry_ verbose_ m
        = (register_sim built ;; ret built)
            {| self :=
                 with_retry retry_
                   (with_sim_interface sim_interface
                      (with_verbose verbose_
                         (with_workspace (cfg_workspace config)
                            (with_client_config config (self m)))));
               world := world m; calls := calls m;
               logs := logs m ++
                 advisory_log
                   (outcome_of schema_env schema_iface schema_types
                      sim_interface) |}).
Proof.
  split; [apply validate_interface_returns|].
  intros config built Hcfg Hcl.
  unfold init.
  unfold bind at 1. unfold lift at 1. rewrite Hcfg.
  unfold bind at 1. unfold set_self at 1.
  unfold bind at 1. unfold get_self at 1.
  unfold bind at 1. unfold set_self at 1.
  unfold bind at 1. unfold lift at 1. cbn [self]. rewrite Hcl.
  unfold bind at 1. unfold set_self at 1.
  unfold bind at 1. rewrite validate_interface_returns.
  reflexivity.
Qed.

End Advisory.

End ConnectorFacts.

(** * The properties on scripted platforms *)

Lemma next_event_validates_first_witness :
  next_event scripted 500 (PDict [(PStr "numpy", PObj "numpy.float64" "10.0")])
    (machine_of (connector false 1) (answers [Ok (event_of "Idle" 2)]))
  = Some (Raise (unsupported (PObj "numpy.float64" "10.0")),
          machine_of (connector false 1) (answers [Ok (event_of "Idle" 2)])).
Proof. apply next_event_validates_first. reflexivity. Defined.

Lemma next_event_unregister_no_retry_witness :
  exists m',
    next_event scripted 500 snapshot
      (machine_of (connector false 1)
         (answers [Ok (unregister_event 5 "quota exceeded")]))
    = Some (Raise (RuntimeError
                     [PStr "Simulator Session unregistered by platform because of ";
                      PStr "quota exceeded"]), m')
    /\ calls m'
       = [CallAdvance "ws" "s1"
            {| SimulatorState.sequence_id := 1;
               SimulatorState.state := snapshot;
               SimulatorState.halted := PBool true |}]
    /\ world m' = answers [].
Proof.
  apply (next_event_unregister_no_retry scripted 500 snapshot (PBool true)
           (machine_of (connector false 1)
              (answers [Ok (unregister_event 5 "quota exceeded")]))
           (unregister_event 5 "quota exceeded") (answers [])
           {| details := PStr "quota exceeded" |});
    reflexivity.
Defined.

Lemma next_event_decodes_witness :
  next_event scripted 500 snapshot
    (machine_of (connector false 1)
       (answers [Ok (start_event 2 (PDict [(PStr "a", PInt 1)]))]))
  = Some (Ok {| event_type := EPISODE_START;
                event_content := PDict [(PStr "a", PInt 1)] |},
          logged
            (advanced
               (machine_of (connector false 1)
                  (answers [Ok (start_event 2 (PDict [(PStr "a", PInt 1)]))]))
               snapshot (PBool true)
               (start_event 2 (PDict [(PStr "a", PInt 1)])) (answers []))
            [(INFO, LogMsg [Lit "Start episode"])]).
Proof.
  apply (proj1 (proj2
           (next_event_decodes scripted 500 snapshot (PBool true)
              (machine_of (connector false 1)
                 (answers [Ok (start_event 2 (PDict [(PStr "a", PInt 1)]))]))
              (start_event 2 (PDict [(PStr "a", PInt 1)])) (answers [])
              eq_refl eq_refl eq_refl))
           {| config := PDict [(PStr "a", PInt 1)] |});
    reflexivity.
Defined.

Example unknown_kind_foo :
  next_event scripted 500 snapshot
    (machine_of (connector false 1) (answers [Ok (event_of "Foo" 7)]))
  = Some (Raise (TypeError [Lit "Unknown event type. Received ";
                            Fmt (PStr "Foo")]),
          advanced
            (machine_of (connector false 1) (answers [Ok (event_of "Foo" 7)]))
            snapshot (PBool true) (event_of "Foo" 7) (answers [])).
Proof. reflexivity. Qed.

(** C3, as the specification states it, fails: the platform answers with
    the unknown kind Foo and the sequence number 7; [next_event] raises,
    and the stored sequence number, 1 before the call, is 7 after it. *)
Lemma next_event_raise_not_atomic :
  exists m',
    next_event scripted 500 snapshot
      (machine_of (connector false 1) (answers [Ok (event_of "Foo" 7)]))
    = Some (Raise (TypeError [Lit "Unknown event type. Received ";
                              Fmt (PStr "Foo")]), m')
    /\ sequence_id (connector false 1) = 1%Z
    /\ sequence_id (self m') = 7%Z
    /\ sequence_id (self m') <> sequence_id (connector false 1)
    /\ retry (connector false 1) = false.
Proof.
  eexists. split; [vm_compute; reflexivity|].
  repeat split. cbn. discriminate.
Qed.

Lemma next_event_state_after_raise_witness :
  exists r m',
    next_event scripted 500 snapshot
      (machine_of (connector false 1) (answers [Ok (event_of "Foo" 7)]))
    = Some (r, m')
    /\ sequence_id (self m') = 7%Z
    /\ registered_session (self m') = {| session_id := "s1" |}
    /\ (unknown_kind "Foo" -> r = Raise (unknown_event "Foo")).
Proof.
  apply (proj2 (proj2 (proj2
           (next_event_state_after_raise scripted 500 snapshot
              (machine_of (connector false 1)
                 (answers [Ok (event_of "Foo" 7)]))))) (PBool true)
           (event_of "Foo" 7) (answers []));
    try reflexivity.
  left. discriminate.
Defined.

(** C2 on a run: retry is on, the platform answers Unregister, accepts the
    registration and answers the retried advance with Idle.  The retried
    call returns the event IDLE; the caller gets a TypeError. *)
Lemma next_event_retry_drops_event_witness :
  next_event scripted 499 snapshot reregistered
  = Some (Ok {| event_type := IDLE; event_content := PDict [] |},
          logged
            (advanced reregistered snapshot (PBool true) (event_of "Idle" 2)
               {| sessions := []; events := [] |})
            [(INFO, LogMsg [Lit "Idling..."])])
  /\ sequence_id (self reregistered) = 1%Z
  /\ next_event scripted 500 snapshot
       (machine_of (connector true 1)
          (answers [Ok (unregister_event 5 "quota exceeded");
                    Ok (event_of "Idle" 2)]))
     = Some (Raise (TypeError [Lit "Unknown event type. Received ";
                               Fmt (PStr "Unregister")]),
             logged
               (advanced reregistered snapshot (PBool true)
                  (event_of "Idle" 2) {| sessions := []; events := [] |})
               [(INFO, LogMsg [Lit "Idling..."])]).
Proof.
  split; [reflexivity|].
  apply (next_event_retry_drops_event scripted 499 snapshot (PBool true)
           (machine_of (connector true 1)
              (answers [Ok (unregister_event 5 "quota exceeded");
                        Ok (event_of "Idle" 2)]))
           reregistered _ (unregister_event 5 "quota exceeded")
           (answers [Ok (event_of "Idle" 2)])
           {| event_type := IDLE; event_content := PDict [] |});
    reflexivity.
Defined.


Lemma validate_interface_advisory_witness :
  validate_interface (schema_files (Some (ValidationError "'name' is a required property")))
    (PDict [(PStr "timeout", PInt 60)])
    (machine_of blank (answers []))
  = Some (Ok (PDict [(PStr "timeout", PInt 60)]),
          {| self := blank; world := answers []; calls := [];
             logs := [(WARNING, LogMsg [Lit "Errors validating sim_interface JSON schema."]);
                      (WARNING, LogExc (ValidationError "'name' is a required property"))] |})
  /\ init (schema_files (Some (ValidationError "'name' is a required property")))
       (fun v => Ok {| cfg_workspace := "ws"; simulator_context := PStr "ctx";
                       enable_logging := v |})
       (fun _ => Ok scripted)
       (PDict [(PStr "timeout", PInt 60)]) false false
       (machine_of blank (answers []))
     = (register_sim scripted ;; ret scripted)
         {| self :=
              with_retry false
                (with_sim_interface (PDict [(PStr "timeout", PInt 60)])
                   (with_verbose false
                      (with_workspace "ws"
                         (with_client_config
                            {| cfg_workspace := "ws";
                               simulator_context := PStr "ctx";
                               enable_logging := false |} blank))));
            world := answers []; calls := [];
            logs := [(WARNING, LogMsg [Lit "Errors validating sim_interface JSON schema."]);
                     (WARNING, LogExc (ValidationError "'name' is a required property"))] |}.
Proof.
  destruct (validate_interface_advisory
              (schema_files (Some (ValidationError "'name' is a required property")))
              "siminterface.schema.json" "simtypes.schema.json"
              (PDict []) (PDict [])
              eq_refl eq_refl eq_refl eq_refl
              (PDict [(PStr "timeout", PInt 60)])
              (machine_of blank (answers []))
              (fun v => Ok {| cfg_workspace := "ws"; simulator_context := PStr "ctx";
                              enable_logging := v |})
              (fun _ => Ok scripted)
              false false) as [H1 H2].
  split; [exact H1|].
  exact (H2 {| cfg_workspace := "ws"; simulator_context := PStr "ctx";
               enable_logging := false |} scripted eq_refl eq_refl).
Defined.

(** * Further properties of the validator *)

Lemma for_each_app {A} (body : A -> result unit) (a b : list A) :
  for_each body (a ++ b)
  = match for_each body a with
    | Ok _ => for_each body b
    | Raise e => Raise e
    end.
Proof.
  induction a as [|x a IH]; simpl; [reflexivity|].
  destruct (body x); [exact IH|reflexivity].
Qed.

(** X1: a value on which [validate_state] returns is built only from
    booleans, integers, floats and lists and dicts of such values: no
    string, [None], complex number or object of another class is anywhere
    in it, below list items and dict values. *)
Theorem validate_state_returns_only_plain (levels : nat) (v : pyval) :
  validate_state levels v = Ok tt ->
  plain_value v
  /\ (forall u, occurs u v -> type_in (type_of u) allowed_types = true).
Proof.
  intros H.
  assert (N : first_invalid v = None).
  { destruct (validate_state_limit_or v levels) as [E|E];
      rewrite E in H; [discriminate H|].
    unfold unlimited in H. destruct (first_invalid v); [discriminate|reflexivity]. }
  split; [exact (valid_plain_value v N)|].
  intros u Hu.
  destruct (type_in (type_of u) allowed_types) eqn:E; [reflexivity|].
  exfalso. apply (first_invalid_complete v u Hu); [|exact N].
  unfold has_invalid_type. rewrite E. reflexivity.
Qed.

Lemma validate_state_returns_only_plain_witness :
  plain_value (PDict [(PStr "accepted", PList [PBool true; PBool false])])
  /\ (forall u,
        occurs u (PDict [(PStr "accepted", PList [PBool true; PBool false])]) ->
        type_in (type_of u) allowed_types = true).
Proof.
  apply (validate_state_returns_only_plain 500). reflexivity.
Defined.

(** X2: an error of [validate_state] is the RecursionError of a value
    nested deeper than the recursion limit allows, or it is about the
    first node, depth first and in the order of the items, whose type is
    not allowed, a node of the value: the TypeError of an element that is
    not supported, naming that node and its type, or what formatting that
    node into the message raised. *)
Theorem validate_state_error_names_node (levels : nat) (v : pyval) (e : exn) :
  validate_state levels v = Raise e ->
  e = RecursionError
  \/ exists bad,
       first_invalid v = Some bad
       /\ occurs bad v
       /\ has_invalid_type bad = true
       /\ e = match str_raises bad with
              | Some e' => e'
              | None =>
                  TypeError [Lit "Element '"; Fmt bad; Lit "' not supported: ";
                             FmtType (type_of bad)]
              end.
Proof.
  intros H. destruct (validate_state_limit_or v levels) as [E|E];
    rewrite E in H; [left; inversion H; reflexivity|right].
  unfold unlimited in H.
  destruct (first_invalid v) as [bad|] eqn:F; [|discriminate].
  exists bad. destruct (first_invalid_sound v bad F) as [Ho Hi].
  repeat split; try assumption. inversion H. reflexivity.
Qed.

Lemma validate_state_error_names_node_witness :
  OtherError "ValueError" "no text" = RecursionError
  \/ exists bad,
       first_invalid (PList [PInt 1; PBroken "Odd" "ValueError" "no text"; PNone])
       = Some bad
       /\ occurs bad (PList [PInt 1; PBroken "Odd" "ValueError" "no text"; PNone])
       /\ has_invalid_type bad = true
       /\ OtherError "ValueError" "no text"
          = match str_raises bad with
            | Some e' => e'
            | None =>
                TypeError [Lit "Element '"; Fmt bad; Lit "' not supported: ";
                           FmtType (type_of bad)]
            end.
Proof.
  apply (validate_state_error_names_node 500
           (PList [PInt 1; PBroken "Odd" "ValueError" "no text"; PNone])).
  reflexivity.
Defined.

(** X3: [validate_state] never looks at the keys of a dict: with the keys
    replaced by anything, of any type, it returns or raises the same. *)
Theorem validate_state_ignores_keys (levels : nat) (f : pyval -> pyval)
    (items : list (pyval * pyval)) :
  validate_state levels (PDict (map (fun kv => (f (fst kv), snd kv)) items))
  = validate_state levels (PDict items).
Proof.
  destruct levels as [|deeper]; [reflexivity|].
  rewrite !validate_state_dict.
  induction items as [|[k x] items IH]; simpl; [reflexivity|].
  destruct (validate_state deeper x); [exact IH|reflexivity].
Qed.

(** X4: the items of a list, and of a dict, are checked in order and the
    check stops at the first error: on the items [a] followed by [b],
    [validate_state] raises what it raises on [a] and, if it returns on
    [a], does what it does on [b]. *)
Theorem validate_state_app (levels : nat) (a b : list pyval)
    (c d : list (pyval * pyval)) :
  validate_state levels (PList (a ++ b))
  = match validate_state levels (PList a) with
    | Ok _ => validate_state levels (PList b)
    | Raise e => Raise e
    end
  /\ validate_state levels (PDict (c ++ d))
     = match validate_state levels (PDict c) with
       | Ok _ => validate_state levels (PDict d)
       | Raise e => Raise e
       end.
Proof.
  destruct levels as [|deeper]; [split; reflexivity|].
  rewrite !validate_state_list, !validate_state_dict.
  split; apply for_each_app.
Qed.

Lemma validate_state_unwrap (levels : nat) (y : pyval) :
  validate_state (S (S levels)) (PList [PDict [(PStr "k", y)]])
  = validate_state levels y.
Proof.
  rewrite validate_state_list. cbn [for_each].
  rewrite validate_state_dict. cbn [for_each].
  destruct (validate_state levels y) as [[]|e]; reflexivity.
Qed.

(** X5: every level of nesting takes one level of the recursion limit and
    changes nothing else: below [n] levels of a list holding a dict,
    [validate_state] raises RecursionError when the levels left are no
    more than the [2 * n] of the nesting, and otherwise does on the inner
    value, with the levels that remain, what it does on the whole: it
    returns if it returns on it, and raises the same error, naming the
    same element, if it raises on it. *)
Theorem validate_state_wrap (n levels : nat) (x : pyval) :
  validate_state levels (wrap n x)
  = (if (levels <=? 2 * n)%nat then Raise RecursionError
     else validate_state (levels - 2 * n) x).
Proof.
  revert levels. induction n as [|n IH]; intros levels.
  - destruct levels as [|l]; [reflexivity|].
    cbn [Nat.mul Nat.leb]. rewrite Nat.sub_0_r. reflexivity.
  - destruct levels as [|[|l]]; [reflexivity|reflexivity|].
    cbn [wrap]. rewrite validate_state_unwrap, IH.
    replace (2 * S n) with (S (S (2 * n))) by lia.
    cbn [Nat.leb Nat.sub]. reflexivity.
Qed.

(** * Further properties of the session engine *)

Section MoreConnectorFacts.

Context {W : Type}.
Variable client : BonsaiClient W.

Ltac run_method :=
  unfold bind, lift, get_self, set_self, transport, log_info, log_debug, log,
    ret, raise;
  unfold log_record in *;
  cbn [self world calls logs].

(** ** register_sim *)

Lemma register_sim_cases (m : machine W) :
  register_sim client m
  = match SimulatorInterface_new client
            (simulator_context (client_config (self m)))
            (sim_interface (self m)) with
    | Raise e => Some (Raise e, m)
    | Ok info =>
        match session_create client (workspace (self m)) info (world m) with
        | (Raise e, w') =>
            Some (Raise e,
                  {| self := self m; world := w';
                     calls := calls m ++ [CallCreate (workspace (self m)) info];
                     logs := logs m |})
        | (Ok s, w') =>
            Some (Ok tt,
                  {| self := with_sequence_id 1
                               (with_registered_session s (self m));
                     world := w';
                     calls := calls m ++ [CallCreate (workspace (self m)) info];
                     logs := logs m ++
                       [(INFO, LogMsg [Lit "Created session with session_id ";
                                       Fmt (PStr (session_id s))])] |})
        end
    end.
Proof.
  unfold register_sim. run_method.
  destruct (SimulatorInterface_new client _ _) as [info|e].
  - destruct (session_create client _ _ _) as [[s|e] w']; reflexivity.
  - destruct m; reflexivity.
Qed.


(** ** next_event *)


(** [next_event] comes back whatever the recursion limit. *)
Lemma next_event_comes_back (levels : nat) (state : pyval) :
  forall m, exists r m', next_event client levels state m = Some (r, m').
Proof.
  induction levels as [|deeper IH]; intros m.
  { exists (Raise RecursionError), m. apply next_event_invalid. reflexivity. }
  destruct (validate_state (S deeper) state) as [[]|e] eqn:Hv.
  2:{ exists (Raise e), m. apply next_event_invalid. exact Hv. }
  destruct (py_get state "halted" (PBool false)) as [h|e] eqn:Hg.
  2:{ exists (Raise e), m. apply next_event_no_get; assumption. }
  destruct (advance_of client m state h (world m)) as [[event|e] w'] eqn:Ha.
  2:{ eexists _, _. apply next_event_transport_raises; eassumption. }
  destruct (string_dec (Event.type event) "Unregister") as [Ht|Ht].
  - destruct (retry (self m)) eqn:Hr.
    + rewrite (next_event_retry client deeper state h m event w' Hv Hg Ha Ht Hr).
      rewrite register_sim_cases.
      destruct (SimulatorInterface_new client _ _) as [info|e];
        [|eexists _, _; reflexivity].
      destruct (session_create client _ _ _) as [[s|e] w''];
        [|eexists _, _; reflexivity].
      match goal with
      | |- context [next_event client deeper state ?m1] =>
          destruct (IH m1) as (r1 & m2 & Hn); rewrite Hn
      end.
      destruct r1; eexists _, _; reflexivity.
    + destruct (next_event_stores_answer client (S deeper) state h m event w'
                  Hv Hg Ha (or_intror Hr)) as (r & m' & Hn & _).
      exists r, m'. exact Hn.
  - destruct (next_event_stores_answer client (S deeper) state h m event w'
                Hv Hg Ha (or_introl Ht)) as (r & m' & Hn & _).
    exists r, m'. exact Hn.
Qed.

(** X7: on a state snapshot whose top level is not a dict (a list, or a
    bare boolean, integer or float, which [validate_state] accepts, or
    anything it rejects) [next_event] raises with the machine as it was: no
    request reaches the platform, and nothing is stored or logged. *)
Theorem next_event_needs_dict (levels : nat) (state : pyval) (m : machine W) :
  (forall items, state <> PDict items) ->
  exists e, next_event client levels state m = Some (Raise e, m).
Proof.
  intros Hnd. destruct (validate_state levels state) as [[]|e] eqn:Hv.
  - destruct (py_get state "halted" (PBool false)) as [h|e] eqn:Hg.
    + destruct state; try discriminate Hg. exfalso. apply (Hnd items eq_refl).
    + exists e. apply next_event_no_get; assumption.
  - exists e. apply next_event_invalid. exact Hv.
Qed.



(** X9: an event that [next_event] returns comes from exactly one advance
    call: the platform has answered it with one of the four kinds Idle,
    EpisodeStart, EpisodeStep and EpisodeFinish, which is the value of the
    type of the event returned; the object stores the sequence number of
    that answer, and no other transport call was made.  So no call that
    met an Unregister answer returns an event. *)
Theorem next_event_returns_one_answer (levels : nat) (state : pyval)
    (m m' : machine W) (ev : BonsaiEvent) :
  next_event client levels state m = Some (Ok ev, m') ->
  exists h event w',
    advance_of client m state h (world m) = (Ok event, w')
    /\ BonsaiEventType_value (event_type ev) = Event.type event
    /\ self m' = with_sequence_id (Event.sequence_id event) (self m)
    /\ world m' = w'
    /\ calls m' = (calls m ++ [advance_call m state h])%list.
Proof.
  intros H.
  destruct (validate_state levels state) as [[]|e] eqn:Hv.
  2:{ rewrite (next_event_invalid client levels state m e Hv) in H.
      discriminate. }
  destruct (py_get state "halted" (PBool false)) as [h|e] eqn:Hg.
  2:{ rewrite (next_event_no_get client levels state m e Hv Hg) in H.
      discriminate. }
  destruct (advance_of client m state h (world m)) as [[event|e] w'] eqn:Ha.
  2:{ rewrite (next_event_transport_raises client levels state m h e w' Hv Hg Ha)
        in H. discriminate. }
  destruct levels as [|deeper]; [discriminate Hv|].
  exists h, event, w'. split; [exact Ha|].
  destruct (string_dec (Event.type event) "Idle") as [Ht|N1].
  { rewrite (next_event_idle client deeper state h m event w' Hv Hg Ha Ht) in H.
    inversion H; subst. rewrite Ht. repeat split. }
  destruct (string_dec (Event.type event) "EpisodeStart") as [Ht|N2].
  { rewrite (next_event_start client deeper state h m event w' Hv Hg Ha Ht) in H.
    destruct (Event.episode_start event); [|discriminate].
    inversion H; subst. rewrite Ht. repeat split. }
  destruct (string_dec (Event.type event) "EpisodeStep") as [Ht|N3].
  { rewrite (next_event_step client deeper state h m event w' Hv Hg Ha Ht) in H.
    destruct (Event.episode_step event); [|discriminate].
    inversion H; subst. rewrite Ht. repeat split. }
  destruct (string_dec (Event.type event) "EpisodeFinish") as [Ht|N4].
  { rewrite (next_event_finish client deeper state h m event w' Hv Hg Ha Ht) in H.
    destruct (Event.episode_finish event); [|discriminate].
    inversion H; subst. rewrite Ht. repeat split. }
  exfalso.
  destruct (string_dec (Event.type event) "Unregister") as [Ht|N5].
  - destruct (retry (self m)) eqn:Hr.
    + rewrite (next_event_retry client deeper state h m event w' Hv Hg Ha Ht Hr)
        in H.
      destruct (register_sim client _) as [[[[]|e] m1]|]; try discriminate.
      destruct (next_event client deeper state m1) as [[[ev'|e] m2]|];
        discriminate.
    + rewrite (next_event_revoked client deeper state h m event w' Hv Hg Ha Ht Hr)
        in H.
      destruct (Event.unregister event); discriminate.
  - rewrite (next_event_unknown client deeper state h m event w' Hv Hg Ha) in H;
      [discriminate|repeat split; assumption].
Qed.

(** X10: with retry off [next_event] does not call itself: it comes back
    whatever the recursion limit, having made no transport call or the one
    advance call, and never a registration, so the session is the one it
    had. *)
Theorem next_event_no_retry_one_call (levels : nat) (state : pyval)
    (m : machine W) :
  retry (self m) = false ->
  exists r m',
    next_event client levels state m = Some (r, m')
    /\ registered_session (self m') = registered_session (self m)
    /\ (calls m' = calls m
        \/ exists h, calls m' = (calls m ++ [advance_call m state h])%list).
Proof.
  intros Hr.
  destruct (validate_state levels state) as [[]|e] eqn:Hv.
  2:{ exists (Raise e), m. split; [apply next_event_invalid, Hv|].
      split; [reflexivity|left; reflexivity]. }
  destruct (py_get state "halted" (PBool false)) as [h|e] eqn:Hg.
  2:{ exists (Raise e), m. split; [apply next_event_no_get; assumption|].
      split; [reflexivity|left; reflexivity]. }
  destruct (advance_of client m state h (world m)) as [[event|e] w'] eqn:Ha.
  - destruct (next_event_stores_answer client levels state h m event w' Hv Hg Ha
                (or_intror Hr)) as (r & m' & Hn & Hs & _ & Hc).
    exists r, m'. split; [exact Hn|]. rewrite Hs.
    split; [reflexivity|right; exists h; exact Hc].
  - eexists _, _. split.
    + apply next_event_transport_raises; eassumption.
    + split; [reflexivity|right; exists h; reflexivity].
Qed.

End MoreConnectorFacts.

Section LifecycleFacts.

Context {W : Type}.
Variable client : BonsaiClient W.

Ltac run_method :=
  unfold bind, lift, get_self, set_self, transport, log_info, log_debug, log,
    ret, raise;
  unfold log_record in *;
  cbn [self world calls logs].


(** X12: when the registration of the retry fails in the create call, its
    error is what [next_event] raises; the object keeps the session the
    platform has revoked, with the sequence number of the Unregister
    answer, and the advance and the create are the two transport calls
    made. *)
Theorem next_event_reregistration_fails (levels : nat) (state h : pyval)
    (m : machine W) (event : Event.t) (w' w'' : W)
    (info : SimulatorInterface.t) (e : exn) :
  validate_state levels state = Ok tt ->
  py_get state "halted" (PBool false) = Ok h ->
  advance_of client m state h (world m) = (Ok event, w') ->
  Event.type event = "Unregister" ->
  retry (self m) = true ->
  SimulatorInterface_new client (simulator_context (client_config (self m)))
    (sim_interface (self m)) = Ok info ->
  session_create client (workspace (self m)) info w' = (Raise e, w'') ->
  exists m',
    next_event client levels state m = Some (Raise e, m')
    /\ self m' = with_sequence_id (Event.sequence_id event) (self m)
    /\ world m' = w''
    /\ calls m'
       = (calls m ++ [advance_call m state h;
                      CallCreate (workspace (self m)) info])%list.
Proof.
  intros Hv Hg Ha Ht Hr Hi Hc.
  destruct levels as [|deeper]; [discriminate Hv|].
  rewrite (next_event_retry client deeper state h m event w' Hv Hg Ha Ht Hr).
  rewrite register_sim_cases. cbn [self world calls logs logged advanced].
  cbn [with_sequence_id client_config sim_interface workspace].
  rewrite Hi, Hc. eexists. split; [reflexivity|].
  cbn [self world calls]. repeat split.
  rewrite <- app_assoc. reflexivity.
Qed.

(** X13: an answer of a kind whose payload the platform did not fill makes
    [next_event] raise the AttributeError of the attribute read on [None]
    (config, action, reason, or details when retry is off), after the
    sequence number of the answer was stored. *)
Theorem next_event_missing_payload (levels : nat) (state h : pyval)
    (m : machine W) (event : Event.t) (w' : W) :
  validate_state levels state = Ok tt ->
  py_get state "halted" (PBool false) = Ok h ->
  advance_of client m state h (world m) = (Ok event, w') ->
  (Event.type event = "EpisodeStart" -> Event.episode_start event = None ->
   next_event client levels state m
   = Some (no_attribute TNone "config",
           logged (advanced m state h event w')
             [(INFO, LogMsg [Lit "Start episode"])]))
  /\ (Event.type event = "EpisodeStep" -> Event.episode_step event = None ->
      next_event client levels state m
      = Some (no_attribute TNone "action",
              logged (advanced m state h event w')
                [(INFO, LogMsg [Lit "Episode step"])]))
  /\ (Event.type event = "EpisodeFinish" -> Event.episode_finish event = None ->
      next_event client levels state m
      = Some (no_attribute TNone "reason",
              logged (advanced m state h event w')
                [(INFO, LogMsg [Lit "Finish step"])]))
  /\ (Event.type event = "Unregister" -> Event.unregister event = None ->
      retry (self m) = false ->
      next_event client levels state m
      = Some (no_attribute TNone "details",
              logged (advanced m state h event w')
                [(INFO, LogMsg [Lit "Simulator Session unregistered by the platform"])]))
  /\ sequence_id (self (advanced m state h event w')) = Event.sequence_id event.
Proof.
  intros Hv Hg Ha. destruct levels as [|deeper]; [discriminate Hv|].
  repeat split.
  - intros Ht Hp.
    rewrite (next_event_start client deeper state h m event w' Hv Hg Ha Ht), Hp.
    reflexivity.
  - intros Ht Hp.
    rewrite (next_event_step client deeper state h m event w' Hv Hg Ha Ht), Hp.
    reflexivity.
  - intros Ht Hp.
    rewrite (next_event_finish client deeper state h m event w' Hv Hg Ha Ht), Hp.
    reflexivity.
  - intros Ht Hp Hr.
    rewrite (next_event_revoked client deeper state h m event w' Hv Hg Ha Ht Hr), Hp.
    reflexivity.
Qed.

(** ** __init__ *)

Lemma init_cases (schema_env : SchemaEnv)
    (iface_text types_text : string) (schema_iface schema_types : pyval)
    (BonsaiClientConfig_new : bool -> result BonsaiClientConfig)
    (BonsaiClient_new : BonsaiClientConfig -> result (BonsaiClient W))
    (iface : pyval) (retry_ verbose_ : bool) (m : machine W) :
  read_text schema_env "siminterface.schema.json" = Ok iface_text ->
  json_loads schema_env iface_text = Ok schema_iface ->
  read_text schema_env "simtypes.schema.json" = Ok types_text ->
  json_loads schema_env types_text = Ok schema_types ->
  init schema_env BonsaiClientConfig_new BonsaiClient_new
    iface retry_ verbose_ m
  = match BonsaiClientConfig_new verbose_ with
    | Raise e => Some (Raise e, m)
    | Ok config =>
        match BonsaiClient_new config with
        | Raise e =>
            Some (Raise e,
                  {| self := with_workspace (cfg_workspace config)
                               (with_client_config config (self m));
                     world := world m; calls := calls m; logs := logs m |})
        | Ok built =>
            (register_sim built ;; ret built)
              {| self :=
                   with_retry retry_
                     (with_sim_interface iface
                        (with_verbose verbose_
                           (with_workspace (cfg_workspace config)
                              (with_client_config config (self m)))));
                 world := world m; calls := calls m;
                 logs := logs m ++
                   advisory_log
                     (outcome_of schema_env schema_iface schema_types iface) |}
        end
    end.
Proof.
  intros H1 H2 H3 H4. unfold init.
  unfold bind at 1. unfold lift at 1.
  destruct (BonsaiClientConfig_new verbose_) as [config|e]; [|reflexivity].
  unfold bind at 1. unfold set_self at 1.
  unfold bind at 1. unfold get_self at 1.
  unfold bind at 1. unfold set_self at 1.
  unfold bind at 1. unfold lift at 1. cbn [self].
  destruct (BonsaiClient_new config) as [built|e]; [|reflexivity].
  unfold bind at 1. unfold set_self at 1.
  unfold bind at 1.
  rewrite (validate_interface_returns schema_env iface_text types_text
             schema_iface schema_types H1 H2 H3 H4).
  reflexivity.
Qed.

(** X14: [__init__].  When the configuration or the client cannot be
    built, the error of [BonsaiClientConfig] or [BonsaiClient] is raised
    before the descriptor is checked: nothing is logged and no transport
    call is made.  Otherwise, the schema documents being loaded and the
    registration body built, a create call that returns gives the object
    of the configuration read, the descriptor and the flags passed, the
    session returned and the sequence number 1, whatever the object held
    before, with the client that was built; a create call that raises
    makes [__init__] raise that error after this one transport call, retry
    or not. *)
Theorem init_constructs (schema_env : SchemaEnv)
    (iface_text types_text : string) (schema_iface schema_types : pyval)
    (BonsaiClientConfig_new : bool -> result BonsaiClientConfig)
    (BonsaiClient_new : BonsaiClientConfig -> result (BonsaiClient W))
    (iface : pyval) (retry_ verbose_ : bool) (m : machine W) :
  read_text schema_env "siminterface.schema.json" = Ok iface_text ->
  json_loads schema_env iface_text = Ok schema_iface ->
  read_text schema_env "simtypes.schema.json" = Ok types_text ->
  json_loads schema_env types_text = Ok schema_types ->
  match BonsaiClientConfig_new verbose_ with
  | Raise e =>
      init schema_env BonsaiClientConfig_new BonsaiClient_new
        iface retry_ verbose_ m = Some (Raise e, m)
  | Ok config =>
      match BonsaiClient_new config with
      | Raise e =>
          exists m',
            init schema_env BonsaiClientConfig_new BonsaiClient_new
              iface retry_ verbose_ m = Some (Raise e, m')
            /\ world m' = world m /\ calls m' = calls m /\ logs m' = logs m
      | Ok built =>
          forall info r w',
            SimulatorInterface_new built (simulator_context config) iface
            = Ok info ->
            session_create built (cfg_workspace config) info (world m)
            = (r, w') ->
            exists m',
              init schema_env BonsaiClientConfig_new BonsaiClient_new
                iface retry_ verbose_ m
              = Some (match r with Ok _ => Ok built | Raise e => Raise e end, m')
              /\ world m' = w'
              /\ calls m'
                 = (calls m ++ [CallCreate (cfg_workspace config) info])%list
              /\ match r with
                 | Ok s =>
                     self m'
                     = {| client_config := config;
                          workspace := cfg_workspace config;
                          verbose := verbose_;
                          sim_interface := iface;
                          retry := retry_;
                          registered_session := s;
                          sequence_id := 1 |}
                 | Raise _ => True
                 end
      end
  end.
Proof.
  intros H1 H2 H3 H4.
  rewrite (init_cases schema_env iface_text types_text schema_iface
             schema_types BonsaiClientConfig_new BonsaiClient_new iface
             retry_ verbose_ m H1 H2 H3 H4).
  destruct (BonsaiClientConfig_new verbose_) as [config|e]; [|reflexivity].
  destruct (BonsaiClient_new config) as [built|e].
  2:{ eexists. split; [reflexivity|]. repeat split. }
  intros info r w' Hi Hc.
  unfold bind at 1.
  rewrite register_sim_cases. cbn [self world calls logs].
  cbn [with_retry with_sim_interface with_verbose with_workspace
       with_client_config client_config sim_interface workspace
       cfg_workspace simulator_context].
  rewrite Hi, Hc.
  destruct r as [s|e]; eexists; (split; [reflexivity|]);
    cbn [self world calls]; repeat split.
Qed.

(** ** close_session and the context manager *)

Lemma close_session_cases (m : machine W) :
  close_session client m
  = Some (fst (session_delete client (workspace (self m))
                 (session_id (registered_session (self m))) (world m)),
          {| self := self m;
             world := snd (session_delete client (workspace (self m))
                             (session_id (registered_session (self m)))
                             (world m));
             calls := calls m ++ [delete_call m];
             logs := logs m ++ [(DEBUG, LogMsg [Lit "Closing session..."])] |}).
Proof.
  unfold close_session, delete_call. run_method.
  destruct (session_delete client _ _ _); reflexivity.
Qed.

(** X15: [close_session] keeps no record of having closed: the object is
    as it was, so a second call sends the delete request for the same
    session again (and a later [next_event] would still advance it). *)
Theorem close_session_twice (m : machine W) :
  exists r1 m1 r2 m2,
    close_session client m = Some (r1, m1)
    /\ close_session client m1 = Some (r2, m2)
    /\ self m1 = self m
    /\ self m2 = self m
    /\ calls m2 = (calls m ++ [delete_call m; delete_call m])%list.
Proof.
  do 4 eexists. split; [apply close_session_cases|].
  split; [apply close_session_cases|].
  cbn [self calls]. repeat split.
  rewrite <- app_assoc. reflexivity.
Qed.

Lemma exit_cases (type_ : option string) (m : machine W) :
  __exit__ client type_ m
  = Some (match fst (session_delete client (workspace (self m))
                       (session_id (registered_session (self m)))
                       (world m)) with
          | Ok _ =>
              Ok (match type_ with
                  | Some cls =>
                      if cls =? "KeyboardInterrupt" then PBool true else PNone
                  | None => PNone
                  end)
          | Raise e => Raise e
          end,
          {| self := self m;
             world := snd (session_delete client (workspace (self m))
                             (session_id (registered_session (self m)))
                             (world m));
             calls := calls m ++ [delete_call m];
             logs := logs m ++
               [(INFO, LogMsg [Lit "Closing session with session_id ";
                               Fmt (PStr (session_id
                                            (registered_session (self m))))]);
                (DEBUG, LogMsg [Lit "Closing session..."])] |}).
Proof.
  unfold __exit__, close_session, delete_call. run_method.
  destruct (session_delete client _ _ _) as [[[]|e] w'];
    cbn [fst snd]; rewrite <- app_assoc; cbn [app].
  - destruct type_ as [cls|]; [destruct (cls =? "KeyboardInterrupt")|];
      reflexivity.
  - reflexivity.
Qed.

(** X16: [__exit__] closes the session whatever left the block, and tells
    Python to swallow the exception (returns [True]) exactly when its
    class is KeyboardInterrupt itself and the delete call did not raise;
    for every other class, and for a block left without exception, it
    returns [None]; when the delete call raises, [__exit__] raises that
    error. *)
Theorem exit_swallows_keyboard_interrupt (type_ : option string)
    (m : machine W) (rd : result unit) (w' : W) :
  session_delete client (workspace (self m))
    (session_id (registered_session (self m))) (world m) = (rd, w') ->
  exists m',
    __exit__ client type_ m
    = Some (match rd with
            | Ok _ => Ok (if match type_ with
                             | Some cls => cls =? "KeyboardInterrupt"
                             | None => false
                             end
                          then PBool true else PNone)
            | Raise e => Raise e
            end, m')
    /\ self m' = self m
    /\ world m' = w'
    /\ calls m' = (calls m ++ [delete_call m])%list.
Proof.
  intros Hd. rewrite exit_cases, Hd. cbn [fst snd].
  eexists. split.
  - destruct rd as [[]|e]; [|reflexivity].
    destruct type_ as [cls|]; [destruct (cls =? "KeyboardInterrupt")|];
      reflexivity.
  - repeat split.
Qed.

(** X17: a [with] block over the connector ends with exactly one delete
    request, for the session the object holds when the block is left,
    whether the block returned or raised; the object is not changed by
    leaving the block. *)
Theorem with_closes_once {A} (body : M W A) (m m1 : machine W)
    (rb : result A) :
  body m = Some (rb, m1) ->
  exists r m2,
    py_with client body m = Some (r, m2)
    /\ self m2 = self m1
    /\ calls m2 = (calls m1 ++ [delete_call m1])%list.
Proof.
  intros Hb. unfold py_with, __enter__, get_self. rewrite Hb.
  destruct rb as [a|e]; rewrite exit_cases;
    destruct (fst (session_delete client _ _ _)) as [[]|e'].
  - eexists _, _. split; [reflexivity|]. split; reflexivity.
  - eexists _, _. split; [reflexivity|]. split; reflexivity.
  - destruct (truthy _); eexists _, _; (split; [reflexivity|]);
      split; reflexivity.
  - eexists _, _. split; [reflexivity|]. split; reflexivity.
Qed.

(** X18: what a [with] block over the connector gives its caller: when the
    delete call raises, that error, whatever the block did; otherwise the
    value of the block, nothing at all for a block left by
    KeyboardInterrupt, which is swallowed, and the exception of the block
    for every other class. *)
Theorem with_outcome {A} (body : M W A) (m m1 : machine W) (rb : result A)
    (rd : result unit) (w' : W) :
  body m = Some (rb, m1) ->
  session_delete client (workspace (self m1))
    (session_id (registered_session (self m1))) (world m1) = (rd, w') ->
  exists m2,
    py_with client body m
    = Some (match rd with
            | Raise e' => Raise e'
            | Ok _ =>
                match rb with
                | Ok a => Ok (Some a)
                | Raise e =>
                    if exn_class e =? "KeyboardInterrupt" then Ok None
                    else Raise e
                end
            end, m2)
    /\ world m2 = w'.
Proof.
  intros Hb Hd. unfold py_with, __enter__, get_self. rewrite Hb.
  destruct rb as [a|e]; rewrite exit_cases, Hd; cbn [fst snd];
    destruct rd as [[]|e'].
  - eexists. split; reflexivity.
  - eexists. split; reflexivity.
  - destruct (exn_class e =? "KeyboardInterrupt"); cbn [truthy];
      eexists; split; reflexivity.
  - eexists. split; reflexivity.
Qed.

End LifecycleFacts.

(** * The further properties on scripted platforms *)


Lemma next_event_needs_dict_witness :
  exists e,
    next_event scripted 500 (PInt 3)
      (machine_of (connector false 1) (answers [Ok (event_of "Idle" 2)]))
    = Some (Raise e,
            machine_of (connector false 1) (answers [Ok (event_of "Idle" 2)])).
Proof.
  apply next_event_needs_dict. intros items H. discriminate H.
Defined.


Lemma next_event_returns_one_answer_witness :
  exists h event w',
    advance_of scripted
      (machine_of (connector true 6) (answers [Ok (event_of "Idle" 7)]))
      snapshot h (answers [Ok (event_of "Idle" 7)]) = (Ok event, w')
    /\ BonsaiEventType_value IDLE = Event.type event
    /\ with_sequence_id 7 (connector true 6)
       = with_sequence_id (Event.sequence_id event) (connector true 6)
    /\ answers [] = w'
    /\ [CallAdvance "ws" "s1"
          {| SimulatorState.sequence_id := 6;
             SimulatorState.state := snapshot;
             SimulatorState.halted := PBool true |}]
       = ([] ++ [advance_call
                   (machine_of (connector true 6)
                      (answers [Ok (event_of "Idle" 7)])) snapshot h])%list.
Proof.
  apply (next_event_returns_one_answer scripted 500 snapshot
           (machine_of (connector true 6) (answers [Ok (event_of "Idle" 7)]))
           {| self := with_sequence_id 7 (connector true 6);
              world := answers [];
              calls := [CallAdvance "ws" "s1"
                          {| SimulatorState.sequence_id := 6;
                             SimulatorState.state := snapshot;
                             SimulatorState.halted := PBool true |}];
              logs := [(INFO, LogMsg [Lit "Idling..."])] |}
           {| event_type := IDLE; event_content := PDict [] |}).
  reflexivity.
Defined.

Lemma next_event_no_retry_one_call_witness :
  exists r m',
    next_event scripted 500 snapshot
      (machine_of (connector false 1)
         (answers [Ok (unregister_event 5 "quota exceeded")]))
    = Some (r, m')
    /\ registered_session (self m') = {| session_id := "s1" |}
    /\ (calls m' = []
        \/ exists h,
             calls m'
             = ([] ++ [advance_call
                         (machine_of (connector false 1)
                            (answers [Ok (unregister_event 5 "quota exceeded")]))
                         snapshot h])%list).
Proof.
  apply (next_event_no_retry_one_call scripted 500 snapshot
           (machine_of (connector false 1)
              (answers [Ok (unregister_event 5 "quota exceeded")]))).
  reflexivity.
Defined.


Lemma next_event_reregistration_fails_witness :
  exists m',
    next_event scripted 500 snapshot
      (machine_of (connector true 1)
         {| sessions := [Raise (OtherError "HttpResponseError" "503")];
            events := [Ok (unregister_event 5 "quota exceeded")] |})
    = Some (Raise (OtherError "HttpResponseError" "503"), m')
    /\ self m' = with_sequence_id 5 (connector true 1)
    /\ world m' = {| sessions := []; events := [] |}
    /\ calls m'
       = ([] ++
          [advance_call
             (machine_of (connector true 1)
                {| sessions := [Raise (OtherError "HttpResponseError" "503")];
                   events := [Ok (unregister_event 5 "quota exceeded")] |})
             snapshot (PBool true);
           CallCreate "ws"
             {| SimulatorInterface.simulator_context := PStr "ctx";
                SimulatorInterface.kwargs := sim_interface (connector true 1) |}])%list.
Proof.
  apply (next_event_reregistration_fails scripted 500 snapshot (PBool true)
           (machine_of (connector true 1)
              {| sessions := [Raise (OtherError "HttpResponseError" "503")];
                 events := [Ok (unregister_event 5 "quota exceeded")] |})
           (unregister_event 5 "quota exceeded")
           {| sessions := [Raise (OtherError "HttpResponseError" "503")];
              events := [] |}
           {| sessions := []; events := [] |});
    reflexivity.
Defined.

Lemma next_event_missing_payload_witness :
  next_event scripted 500 snapshot
    (machine_of (connector false 1) (answers [Ok (event_of "EpisodeStart" 3)]))
  = Some (no_attribute TNone "config",
          logged
            (advanced
               (machine_of (connector false 1)
                  (answers [Ok (event_of "EpisodeStart" 3)]))
               snapshot (PBool true) (event_of "EpisodeStart" 3) (answers []))
            [(INFO, LogMsg [Lit "Start episode"])]).
Proof.
  apply (proj1
           (next_event_missing_payload scripted 500 snapshot (PBool true)
              (machine_of (connector false 1)
                 (answers [Ok (event_of "EpisodeStart" 3)]))
              (event_of "EpisodeStart" 3) (answers [])
              eq_refl eq_refl eq_refl));
    reflexivity.
Defined.

Lemma init_constructs_witness :
  exists m',
    init (schema_files None)
      (fun v => Ok {| cfg_workspace := "ws"; simulator_context := PStr "ctx";
                      enable_logging := v |})
      (fun _ => Ok scripted)
      (PDict [(PStr "name", PStr "sim"); (PStr "timeout", PInt 60)]) true false
      (machine_of blank (answers []))
    = Some (Ok scripted, m')
    /\ world m' = {| sessions := []; events := [] |}
    /\ calls m'
       = ([] ++
          [CallCreate "ws"
             {| SimulatorInterface.simulator_context := PStr "ctx";
                SimulatorInterface.kwargs :=
                  PDict [(PStr "name", PStr "sim");
                         (PStr "timeout", PInt 60)] |}])%list
    /\ self m'
       = {| client_config :=
              {| cfg_workspace := "ws"; simulator_context := PStr "ctx";
                 enable_logging := false |};
            workspace := "ws";
            verbose := false;
            sim_interface :=
              PDict [(PStr "name", PStr "sim"); (PStr "timeout", PInt 60)];
            retry := true;
            registered_session := {| session_id := "s2" |};
            sequence_id := 1 |}.
Proof.
  apply (init_constructs (schema_files None)
           "siminterface.schema.json" "simtypes.schema.json"
           (PDict []) (PDict [])
           (fun v => Ok {| cfg_workspace := "ws"; simulator_context := PStr "ctx";
                           enable_logging := v |})
           (fun _ => Ok scripted)
           (PDict [(PStr "name", PStr "sim"); (PStr "timeout", PInt 60)])
           true false
           (machine_of blank (answers []))
           eq_refl eq_refl eq_refl eq_refl
           {| SimulatorInterface.simulator_context := PStr "ctx";
              SimulatorInterface.kwargs :=
                PDict [(PStr "name", PStr "sim"); (PStr "timeout", PInt 60)] |}
           (Ok {| session_id := "s2" |})
           {| sessions := []; events := [] |});
    reflexivity.
Defined.

Lemma exit_swallows_keyboard_interrupt_witness :
  exists m',
    __exit__ scripted (Some "KeyboardInterrupt")
      (machine_of (connector false 3) (answers []))
    = Some (Ok (PBool true), m')
    /\ self m' = connector false 3
    /\ world m' = answers []
    /\ calls m'
       = ([] ++ [delete_call (machine_of (connector false 3) (answers []))])%list.
Proof.
  apply (exit_swallows_keyboard_interrupt scripted (Some "KeyboardInterrupt")
           (machine_of (connector false 3) (answers [])) (Ok tt) (answers [])).
  reflexivity.
Defined.

Lemma with_closes_once_witness :
  exists r m2,
    py_with scripted (next_event scripted 500 snapshot)
      (machine_of (connector false 1) (answers [Ok (event_of "Foo" 7)]))
    = Some (r, m2)
    /\ self m2 = with_sequence_id 7 (connector false 1)
    /\ calls m2
       = ([CallAdvance "ws" "s1"
             {| SimulatorState.sequence_id := 1;
                SimulatorState.state := snapshot;
                SimulatorState.halted := PBool true |}]
          ++ [CallDelete "ws" "s1"])%list.
Proof.
  apply (with_closes_once scripted (next_event scripted 500 snapshot)
           (machine_of (connector false 1) (answers [Ok (event_of "Foo" 7)]))
           {| self := with_sequence_id 7 (connector false 1);
              world := answers [];
              calls := [CallAdvance "ws" "s1"
                          {| SimulatorState.sequence_id := 1;
                             SimulatorState.state := snapshot;
                             SimulatorState.halted := PBool true |}];
              logs := [] |}
           (Raise (unknown_event "Foo"))).
  reflexivity.
Defined.

Lemma with_outcome_witness :
  exists m2,
    py_with scripted (raise (OtherError "KeyboardInterrupt" ""))
      (machine_of (connector false 1) (answers []))
    = Some (Ok (@None unit), m2)
    /\ world m2 = answers [].
Proof.
  apply (with_outcome scripted (raise (OtherError "KeyboardInterrupt" ""))
           (machine_of (connector false 1) (answers []))
           (machine_of (connector false 1) (answers []))
           (Raise (OtherError "KeyboardInterrupt" "")) (Ok tt) (answers []));
    reflexivity.
Defined.
